(** * FixIT: detector fusion, coordinate resolution, tracking status and
      the replicated annotation store

    A shallow embedding of the front-end logic of the FixIT repository:
      - [services/yoloDetection.js]      (module [YoloDetection]),
      - [components/VideoCapture.jsx]     (module [VideoCapture]),
      - the vision-enabled variant of the video component
        (module [VideoCaptureVision]),
      - [components/VideoCapture_Simple.jsx] (module [VideoCaptureSimple]),
      - [hooks/useAnnotations.js] and [App.js] (modules [UseAnnotations], [App]).

    JavaScript numbers are modelled by exact rationals [Q]: rounding,
    infinities and NaN are outside the model.  Strings are [string]s of
    ASCII characters.  Exceptions are modelled by the [completion] type:
    a computation either completes normally with a value or throws. *)

From Stdlib Require Import List String Ascii Bool ZArith QArith Lqa Lia.
Import ListNotations.

Local Open Scope Q_scope.

(* ================================================================== *)
(** * JavaScript primitives used by the sources *)
(* ================================================================== *)

Module Js.

(** Completion of a computation: normal value or thrown error. *)
Inductive completion (A : Type) : Type :=
| Normal (a : A)
| Throw (e : string).
Arguments Normal {A} a.
Arguments Throw {A} e.

Definition bind {A B : Type} (c : completion A) (k : A -> completion B)
  : completion B :=
  match c with
  | Normal a => k a
  | Throw e => Throw e
  end.

(** [try { body } catch (error) { handler }] *)
Definition try_catch {A : Type} (body : completion A)
           (handler : string -> completion A) : completion A :=
  match body with
  | Normal a => Normal a
  | Throw e => handler e
  end.

(** Reading a property of [undefined] throws a [TypeError]. *)
Definition property_of {A : Type} (o : option A) : completion A :=
  match o with
  | Some a => Normal a
  | None => Throw "TypeError"
  end.

(** [Array.prototype.filter] with a callback that may throw. *)
Fixpoint filter {A : Type} (f : A -> completion bool) (l : list A)
  : completion (list A) :=
  match l with
  | [] => Normal []
  | x :: l' =>
      bind (f x) (fun keep =>
      bind (filter f l') (fun r =>
      Normal (if keep then x :: r else r)))
  end.

(** [Array.prototype.map] with a callback that may throw. *)
Fixpoint map {A B : Type} (f : A -> completion B) (l : list A)
  : completion (list B) :=
  match l with
  | [] => Normal []
  | x :: l' =>
      bind (f x) (fun y =>
      bind (map f l') (fun r =>
      Normal (y :: r)))
  end.

(** [Array.prototype.sort(compare)]: a stable sort; [a] stays before [b]
    when [compare a b <= 0]. *)
Fixpoint sort_insert {A : Type} (compare : A -> A -> Q) (x : A) (l : list A)
  : list A :=
  match l with
  | [] => [x]
  | y :: l' =>
      if Qle_bool (compare x y) 0 then x :: y :: l'
      else y :: sort_insert compare x l'
  end.

Definition sort {A : Type} (compare : A -> A -> Q) (l : list A) : list A :=
  fold_right (sort_insert compare) [] l.

(** [a > b] on numbers. *)
Definition gt (a b : Q) : bool := negb (Qle_bool a b).

(** Primitive values that occur as annotation ids. *)
Inductive value : Type :=
| Undefined
| Null
| Boolean (b : bool)
| Num (n : Q)
| Str (s : string).

(** [ToBoolean]: the falsy primitives are [undefined], [null], [false],
    [0] and the empty string. *)
Definition truthy (v : value) : bool :=
  match v with
  | Undefined => false
  | Null => false
  | Boolean b => b
  | Num n => negb (Qeq_bool n 0)
  | Str s => negb (String.eqb s EmptyString)
  end.

(** [a === b] *)
Definition strict_eq (a b : value) : bool :=
  match a, b with
  | Undefined, Undefined => true
  | Null, Null => true
  | Boolean x, Boolean y => Bool.eqb x y
  | Num x, Num y => Qeq_bool x y
  | Str x, Str y => String.eqb x y
  | _, _ => false
  end.

(** [a || b] on values. *)
Definition or_else (a b : value) : value := if truthy a then a else b.

(** [String.prototype.toLowerCase] on ASCII text. *)
Definition lower_char (c : ascii) : ascii :=
  let n := nat_of_ascii c in
  if (Nat.leb 65 n && Nat.leb n 90)%bool then ascii_of_nat (n + 32) else c.

Fixpoint toLowerCase (s : string) : string :=
  match s with
  | EmptyString => EmptyString
  | String c s' => String (lower_char c) (toLowerCase s')
  end.

(** [String.prototype.includes] *)
Fixpoint includes (s sub : string) : bool :=
  if String.prefix sub s then true
  else match s with
       | EmptyString => false
       | String _ s' => includes s' sub
       end.

End Js.

Import Js.

(* ================================================================== *)
(** * services/yoloDetection.js *)
(* ================================================================== *)

Module YoloDetection.

(** What the object detector reports for one detected object. *)
Record Category : Type := mkCategory {
  categoryName : string;
  score : Q
}.

Record BoundingBox : Type := mkBoundingBox {
  originX : Q;
  originY : Q;
  width : Q;
  height : Q
}.

Record Detection : Type := mkDetection {
  categories : list Category;
  boundingBox : BoundingBox
}.

Record DetectorResult : Type := mkDetectorResult {
  detections : list Detection
}.

(** The objects built by [detectObjects]. *)
Record BBox : Type := mkBBox {
  bbox_x : Q;
  bbox_y : Q;
  bbox_width : Q;
  bbox_height : Q
}.

Record BottleObject : Type := mkBottleObject {
  class : string;
  obj_score : Q;
  bbox : BBox
}.

(** [this.model]: the loaded detector, run on a video element. *)
Definition ObjectDetector (Video : Type) : Type :=
  Video -> completion DetectorResult.

(** The callback of [.filter]: only bottle-like objects are accepted. *)
Definition isBottleLike (name : string) : bool :=
  (String.eqb name "bottle" || String.eqb name "wine glass"
   || String.eqb name "cup")%bool.

Definition filter_callback (det : Detection) : completion bool :=
  bind (property_of (nth_error (categories det) 0)) (fun category =>
  Normal (isBottleLike (categoryName category))).

(** The callback of [.map]. *)
Definition map_callback (det : Detection) : completion BottleObject :=
  bind (property_of (nth_error (categories det) 0)) (fun c0 =>
  Normal {| class := categoryName c0;
            obj_score := score c0;
            bbox := {| bbox_x := originX (boundingBox det);
                       bbox_y := originY (boundingBox det);
                       bbox_width := width (boundingBox det);
                       bbox_height := height (boundingBox det) |} |}).

(** The comparator of [.sort]: [(a, b) => b.score - a.score]. *)
Definition by_confidence (a b : BottleObject) : Q :=
  obj_score b - obj_score a.

Definition detectObjects {Video : Type}
           (model : option (ObjectDetector Video))
           (videoElement : option Video)
  : completion (list BottleObject) :=
  match model, videoElement with
  | Some detectForVideo, Some video =>
      try_catch
        (bind (detectForVideo video) (fun result =>
         bind (Js.filter filter_callback (detections result)) (fun kept =>
         bind (Js.map map_callback kept) (fun bottleObjects =>
         Normal (sort by_confidence bottleObjects)))))
        (fun _ => Normal [])
  | _, _ => Normal []
  end.

Definition detectBottle {Video : Type}
           (model : option (ObjectDetector Video))
           (videoElement : option Video)
  : completion (option BottleObject) :=
  bind (detectObjects model videoElement) (fun objects =>
  match objects with
  | [] => Normal None
  | best :: _ => Normal (Some best)
  end).

End YoloDetection.

(* ================================================================== *)
(** * Annotations, shared by the hook and the video components *)
(* ================================================================== *)

(** [{ id, position: [x, y, z], label }] *)
Record Annotation : Type := mkAnnotation {
  ann_id : value;
  position : Q * Q * Q;
  label : string
}.

(** [{ ...annotation, id: v }] *)
Definition with_id (annotation : Annotation) (v : value) : Annotation :=
  {| ann_id := v; position := position annotation; label := label annotation |}.

(* ================================================================== *)
(** * components/VideoCapture.jsx *)
(* ================================================================== *)

Module VideoCapture.

Record DetectedBox : Type := mkDetectedBox {
  x : Q;
  y : Q;
  width : Q;
  height : Q;
  class : string;
  score : Q
}.

(** ['locked'], ['searching'], ['lost'] *)
Inductive TrackingStatus : Type := locked | searching | lost.

Record CalibrationPoint : Type := mkCalibrationPoint {
  xPercent : Q;
  yPercent : Q
}.

Record Calibration : Type := mkCalibration {
  cap : CalibrationPoint;
  middle : CalibrationPoint;
  bottom : CalibrationPoint
}.

(** The [useState] initial value of [calibration]. *)
Definition calibration : Calibration :=
  {| cap := {| xPercent := 0.5; yPercent := 0.15 |};
     middle := {| xPercent := 0.5; yPercent := 0.5 |};
     bottom := {| xPercent := 0.5; yPercent := 0.85 |} |}.

(** Component state ([detectionStatus] is display text and is left out). *)
Record State : Type := mkState {
  detectedBox : option DetectedBox;
  targetDistance : option Q;
  clearanceDistance : option Q;
  trackingStatus : TrackingStatus
}.

(** The [useState] initial values. *)
Definition initial : State :=
  {| detectedBox := None;
     targetDistance := None;
     clearanceDistance := None;
     trackingStatus := searching |}.

Definition setTrackingStatus (s : TrackingStatus) (st : State) : State :=
  {| detectedBox := detectedBox st;
     targetDistance := targetDistance st;
     clearanceDistance := clearanceDistance st;
     trackingStatus := s |}.

(** One run of [detectLoop].  [readyState] is [videoRef.current.readyState]
    ([None] when the ref is empty), [detection] is the outcome of
    [await detector.detectBottle(videoRef.current)], [random1] and
    [random2] are the two values of [Math.random()]. *)
Definition detectLoop (readyState : option Z)
           (detection : completion (option YoloDetection.BottleObject))
           (random1 random2 : Q) (st : State) : completion State :=
  match readyState with
  | Some 4%Z =>
      try_catch
        (bind detection (fun detection =>
         match detection with
         | Some d =>
             let simulatedTargetDist := 12.4 + (random1 * 1.2 - 0.6) in
             let simulatedClearance := 3.2 + (random2 * 0.4 - 0.2) in
             Normal
               {| detectedBox :=
                    Some {| x := YoloDetection.bbox_x (YoloDetection.bbox d);
                            y := YoloDetection.bbox_y (YoloDetection.bbox d);
                            width := YoloDetection.bbox_width (YoloDetection.bbox d);
                            height := YoloDetection.bbox_height (YoloDetection.bbox d);
                            class := YoloDetection.class d;
                            score := YoloDetection.obj_score d |};
                  targetDistance := Some simulatedTargetDist;
                  clearanceDistance := Some simulatedClearance;
                  trackingStatus := locked |}
         | None => Normal (setTrackingStatus searching st)
         end))
        (fun _ => Normal (setTrackingStatus lost st))
  | _ => Normal st
  end.

(** What one animation frame brings to [detectLoop]. *)
Record Cycle : Type := mkCycle {
  readyState : option Z;
  outcome : completion (option YoloDetection.BottleObject);
  random1 : Q;
  random2 : Q
}.

(** [requestAnimationFrame(detectLoop)]: the loop runs once per frame; the
    tracking status after each run is recorded. *)
Fixpoint run_cycles (cycles : list Cycle) (st : State)
  : completion (list TrackingStatus) :=
  match cycles with
  | [] => Normal []
  | c :: rest =>
      bind (detectLoop (readyState c) (outcome c) (random1 c) (random2 c) st)
           (fun st' =>
      bind (run_cycles rest st') (fun statuses =>
      Normal (trackingStatus st' :: statuses)))
  end.

(** What [draw] puts on the canvas: the box outline and the centre of the
    marker of each annotation (the text drawn next to it is left out). *)
Record Marker : Type := mkMarker {
  markerX : Q;
  markerY : Q
}.

Record Canvas : Type := mkCanvas {
  box_outline : option DetectedBox;
  markers : list Marker
}.

(** The branch of [draw] that maps a label to a calibration point. *)
Definition calibration_point (calibration : Calibration) (ann : Annotation)
  : CalibrationPoint :=
  let label := toLowerCase (label ann) in
  if (includes label "cap" || includes label "top")%bool then
    cap calibration
  else if (includes label "middle" || includes label "center"
           || includes label "body")%bool then
    middle calibration
  else if (includes label "bottom" || includes label "base")%bool then
    bottom calibration
  else
    cap calibration.

(** The body of [annotations.forEach]. *)
Definition draw_marker (calibration : Calibration) (detectedBox : DetectedBox)
           (ann : Annotation) : Marker :=
  let point := calibration_point calibration ann in
  {| markerX := x detectedBox + (xPercent point * width detectedBox);
     markerY := y detectedBox + (yPercent point * height detectedBox) |}.

Definition draw (calibration : Calibration) (detectedBox : option DetectedBox)
           (annotations : list Annotation) : Canvas :=
  {| box_outline :=
       match detectedBox with
       | Some box => if gt (width box) 0 then Some box else None
       | None => None
       end;
     markers :=
       match detectedBox with
       | Some box =>
           if (gt (width box) 0 && Nat.ltb 0 (List.length annotations))%bool
           then List.map (draw_marker calibration box) annotations
           else []
       | None => []
       end |}.

(** The coordinate resolver: the pixel position [draw] computes for one
    annotation, if any. *)
Definition resolve (calibration : Calibration) (ann : Annotation)
           (detectedBox : option DetectedBox) : option (Q * Q) :=
  match markers (draw calibration detectedBox [ann]) with
  | m :: _ => Some (markerX m, markerY m)
  | [] => None
  end.

End VideoCapture.

(* ================================================================== *)
(** * The vision-enabled video component (local detector or remote
      vision service, linear mapping of annotations) *)
(* ================================================================== *)

Module VideoCaptureVision.

Record Point : Type := mkPoint {
  px : Q;
  py : Q
}.

Record Parts : Type := mkParts {
  cap : Point;
  middle : Point;
  bottom : Point
}.

Record DetectedBox : Type := mkDetectedBox {
  x : Q;
  y : Q;
  width : Q;
  height : Q;
  class : string;
  score : Q;
  source : string;
  parts : option Parts
}.

Record ModelBounds : Type := mkModelBounds {
  minX : Q;
  maxX : Q;
  minY : Q;
  maxY : Q;
  minZ : Q;
  maxZ : Q
}.

(** The [useState] initial value of [modelBounds]. *)
Definition modelBounds : ModelBounds :=
  {| minX := -0.5; maxX := 0.5;
     minY := -1.0; maxY := 1.0;
     minZ := -0.5; maxZ := 0.5 |}.

Record State : Type := mkState {
  detectedBox : option DetectedBox;
  useVision : bool
}.

Definition initial : State :=
  {| detectedBox := None; useVision := false |}.

Definition setDetectedBox (box : option DetectedBox) (st : State) : State :=
  {| detectedBox := box; useVision := useVision st |}.

(** One run of the local [detectLoop]. *)
Definition detectLoop (readyState : option Z)
           (detection : completion (option YoloDetection.BottleObject))
           (st : State) : completion State :=
  match readyState with
  | Some 4%Z =>
      try_catch
        (bind detection (fun detection =>
         match detection with
         | Some d =>
             Normal (setDetectedBox
               (Some {| x := YoloDetection.bbox_x (YoloDetection.bbox d);
                        y := YoloDetection.bbox_y (YoloDetection.bbox d);
                        width := YoloDetection.bbox_width (YoloDetection.bbox d);
                        height := YoloDetection.bbox_height (YoloDetection.bbox d);
                        class := YoloDetection.class d;
                        score := YoloDetection.obj_score d;
                        source := "coco-ssd";
                        parts := None |}) st)
         | None => Normal (setDetectedBox None st)
         end))
        (fun _ => Normal st)
  | _ => Normal st
  end.

(** The JSON answer of the remote [/detect-bottle] call. *)
Record VisionBBox : Type := mkVisionBBox {
  bbox_x : Q;
  bbox_y : Q;
  bbox_width : Q;
  bbox_height : Q
}.

Record VisionResult : Type := mkVisionResult {
  detected : bool;
  bbox : VisionBBox;
  confidence : Q;
  result_parts : option Parts
}.

Definition scaleX : Q := 1280 / 640.
Definition scaleY : Q := 720 / 480.

Definition scale_point (p : Point) : Point :=
  {| px := px p * scaleX; py := py p * scaleY |}.

(** One run of [detectWithVision].  [response] is the outcome of
    [await fetch(...)] followed by [await response.json()]: the parsed
    answer, or the error thrown by the request. *)
Definition detectWithVision (response : completion VisionResult) (st : State)
  : completion State :=
  try_catch
    (bind response (fun result =>
     if detected result then
       Normal (setDetectedBox
         (Some {| x := bbox_x (bbox result) * scaleX;
                  y := bbox_y (bbox result) * scaleY;
                  width := bbox_width (bbox result) * scaleX;
                  height := bbox_height (bbox result) * scaleY;
                  class := "bottle";
                  score := confidence result;
                  source := "gpt-4v";
                  parts :=
                    match result_parts result with
                    | Some p => Some {| cap := scale_point (cap p);
                                        middle := scale_point (middle p);
                                        bottom := scale_point (bottom p) |}
                    | None => None
                    end |}) st)
     else Normal (setDetectedBox None st)))
    (fun _ => Normal st).

Record Marker : Type := mkMarker {
  videoX : Q;
  videoY : Q;
  marker_label : string
}.

Record Canvas : Type := mkCanvas {
  box_outline : option DetectedBox;
  part_markers : list (string * Point);
  markers : list Marker
}.

Definition normalizedX (modelBounds : ModelBounds) (x3d : Q) : Q :=
  (x3d - minX modelBounds) / (maxX modelBounds - minX modelBounds).

Definition normalizedY (modelBounds : ModelBounds) (y3d : Q) : Q :=
  (y3d - minY modelBounds) / (maxY modelBounds - minY modelBounds).

(** The body of [annotations.forEach]. *)
Definition draw_marker (modelBounds : ModelBounds) (detectedBox : DetectedBox)
           (ann : Annotation) : Marker :=
  let '(x3d, y3d, _) := position ann in
  {| videoX := x detectedBox + (normalizedX modelBounds x3d * width detectedBox);
     videoY := y detectedBox
               + ((1 - normalizedY modelBounds y3d) * height detectedBox);
     marker_label := if String.eqb (label ann) EmptyString then "Annotation"
                     else label ann |}.

Definition valid_box (box : DetectedBox) : bool :=
  (gt (width box) 0 && gt (height box) 0)%bool.

Definition draw (modelBounds : ModelBounds) (detectedBox : option DetectedBox)
           (annotations : list Annotation) : Canvas :=
  match detectedBox with
  | Some box =>
      {| box_outline := if valid_box box then Some box else None;
         part_markers :=
           if valid_box box then
             match parts box with
             | Some p =>
                 if String.eqb (source box) "gpt-4v" then
                   [("cap", cap p); ("middle", middle p); ("bottom", bottom p)]%string
                 else []
             | None => []
             end
           else [];
         markers :=
           if (valid_box box && Nat.ltb 0 (List.length annotations))%bool
           then List.map (draw_marker modelBounds box) annotations
           else [] |}
  | None => {| box_outline := None; part_markers := []; markers := [] |}
  end.

End VideoCaptureVision.

(* ================================================================== *)
(** * components/VideoCapture_Simple.jsx *)
(* ================================================================== *)

Module VideoCaptureSimple.

Record BottleBox : Type := mkBottleBox {
  x : Q;
  y : Q;
  width : Q;
  height : Q
}.

Definition modelBounds : VideoCaptureVision.ModelBounds :=
  VideoCaptureVision.mkModelBounds (-0.5) 0.5 (-1.0) 1.0 (-0.5) 0.5.

Record Marker : Type := mkMarker {
  videoX : Q;
  videoY : Q;
  marker_label : string
}.

(** The body of [annotations.forEach]. *)
Definition draw_marker (modelBounds : VideoCaptureVision.ModelBounds)
           (bottleBox : BottleBox) (ann : Annotation) : Marker :=
  let '(x3d, y3d, z3d) := position ann in
  let normalizedX :=
    (x3d - VideoCaptureVision.minX modelBounds)
    / (VideoCaptureVision.maxX modelBounds - VideoCaptureVision.minX modelBounds) in
  let normalizedY :=
    (y3d - VideoCaptureVision.minY modelBounds)
    / (VideoCaptureVision.maxY modelBounds - VideoCaptureVision.minY modelBounds) in
  {| videoX := x bottleBox + (normalizedX * width bottleBox);
     videoY := y bottleBox + ((1 - normalizedY) * height bottleBox);
     marker_label := if String.eqb (label ann) EmptyString then "Annotation"
                     else label ann |}.

Definition valid_box (box : BottleBox) : bool :=
  (gt (width box) 0 && gt (height box) 0)%bool.

(** The annotation markers [draw] puts on the canvas. *)
Definition draw (modelBounds : VideoCaptureVision.ModelBounds)
           (bottleBox : option BottleBox) (annotations : list Annotation)
  : list Marker :=
  match bottleBox with
  | Some box =>
      if (valid_box box && Nat.ltb 0 (List.length annotations))%bool
      then List.map (draw_marker modelBounds box) annotations
      else []
  | None => []
  end.

End VideoCaptureSimple.

(* ================================================================== *)
(** * hooks/useAnnotations.js *)
(* ================================================================== *)

Module UseAnnotations.

(** [WebSocket.readyState] *)
Inductive ReadyState : Type := CONNECTING | OPEN | CLOSING | CLOSED.

(** The message envelope, after [JSON.parse]. *)
Inductive Message : Type :=
| annotation_added (annotation : Annotation)
| annotation_removed (id : value)
| other_type (type : string).

(** [websocket?.readyState === WebSocket.OPEN] *)
Definition is_open (websocket : option ReadyState) : bool :=
  match websocket with
  | Some OPEN => true
  | _ => false
  end.

(** [websocket.send(JSON.stringify(message))] when the socket is open:
    the messages handed to the socket. *)
Definition send_if_open (websocket : option ReadyState) (message : Message)
  : list Message :=
  if is_open websocket then [message] else [].

(** [addAnnotation]; [now] is the value of [Date.now()].  The result is
    the new annotation sequence and the messages sent. *)
Definition addAnnotation (websocket : option ReadyState) (now : Q)
           (annotation : Annotation) (prev : list Annotation)
  : list Annotation * list Message :=
  let newAnn := with_id annotation (or_else (ann_id annotation) (Num now)) in
  (prev ++ [newAnn], send_if_open websocket (annotation_added newAnn)).

Definition removeAnnotation (websocket : option ReadyState) (id : value)
           (prev : list Annotation)
  : list Annotation * list Message :=
  (List.filter (fun ann => negb (strict_eq (ann_id ann) id)) prev,
   send_if_open websocket (annotation_removed id)).

(** [handleMessage]; [data] is the outcome of [JSON.parse(event.data)]. *)
Definition handleMessage (data : completion Message) (prev : list Annotation)
  : completion (list Annotation) :=
  bind data (fun data =>
  match data with
  | annotation_added annotation => Normal (prev ++ [annotation])
  | annotation_removed id =>
      Normal (List.filter (fun ann => negb (strict_eq (ann_id ann) id)) prev)
  | other_type _ => Normal prev
  end).

End UseAnnotations.

(* ================================================================== *)
(** * App.js *)
(* ================================================================== *)

Module App.

(** The state of a session: what the hooks of [App] hold, together with
    the state of the vision-enabled video component. *)
Record Session : Type := mkSession {
  modelUrl : option string;
  ws : option UseAnnotations.ReadyState;
  connected : bool;
  annotations : list Annotation;
  video : VideoCaptureVision.State
}.

Definition setAnnotations (anns : list Annotation) (s : Session) : Session :=
  {| modelUrl := modelUrl s; ws := ws s; connected := connected s;
     annotations := anns; video := video s |}.

Definition setModelUrl (url : option string) (s : Session) : Session :=
  {| modelUrl := url; ws := ws s; connected := connected s;
     annotations := annotations s; video := video s |}.

Definition setVideo (v : VideoCaptureVision.State) (s : Session) : Session :=
  {| modelUrl := modelUrl s; ws := ws s; connected := connected s;
     annotations := annotations s; video := v |}.

(** [resetApp]: [setModelUrl(null); removeAnnotation(null)]. *)
Definition resetApp (s : Session) : Session * list UseAnnotations.Message :=
  let s1 := setModelUrl None s in
  let '(anns, sent) :=
    UseAnnotations.removeAnnotation (ws s1) Null (annotations s1) in
  (setAnnotations anns s1, sent).

(** A remote detection cycle of the video component within a session. *)
Definition vision_cycle (response : completion VideoCaptureVision.VisionResult)
           (s : Session) : completion Session :=
  bind (VideoCaptureVision.detectWithVision response (video s)) (fun v =>
  Normal (setVideo v s)).

End App.

(* ================================================================== *)
(** * Vocabulary of the statements and concrete inputs *)
(* ================================================================== *)

Module YoloFacts.
Import YoloDetection.

(** [det.categories[0]] *)
Definition top_category (d : Detection) : option Category :=
  nth_error (categories d) 0.

(** The object [detectObjects] builds from a detection and its first
    category. *)
Definition object_of (d : Detection) (c : Category) : BottleObject :=
  {| class := categoryName c;
     obj_score := score c;
     bbox := {| bbox_x := originX (boundingBox d);
                bbox_y := originY (boundingBox d);
                bbox_width := width (boundingBox d);
                bbox_height := height (boundingBox d) |} |}.

(** The allow-list of target categories, as the specification gives it. *)
Definition allow_list : list string := ["bottle"; "cup"; "wine glass"]%string.

(** A detection whose first category is on the allow-list. *)
Definition accepted (d : Detection) : bool :=
  match top_category d with
  | Some c => isBottleLike (categoryName c)
  | None => false
  end.

Definition unit_box : BoundingBox := mkBoundingBox 10 20 30 40.

(** [{person:0.9, bottle:0.4, chair:0.95}] *)
Definition person_bottle_chair : list Detection :=
  [ mkDetection [mkCategory "person" 0.9] unit_box;
    mkDetection [mkCategory "bottle" 0.4] unit_box;
    mkDetection [mkCategory "chair" 0.95] unit_box ].

(** A detector that reports the given detections for every frame. *)
Definition detector (ds : list Detection) : ObjectDetector unit :=
  fun _ => Normal (mkDetectorResult ds).

End YoloFacts.

Module VideoFacts.
Import VideoCapture.

(** The status the specification assigns to the outcome of a cycle. *)
Definition expected_status
           (outcome : completion (option YoloDetection.BottleObject))
  : TrackingStatus :=
  match outcome with
  | Normal (Some _) => locked
  | Normal None => searching
  | Throw _ => lost
  end.

(** A frame on which the video is ready ([readyState === 4]). *)
Definition ready (outcome : completion (option YoloDetection.BottleObject))
  : Cycle :=
  {| readyState := Some 4%Z; outcome := outcome;
     random1 := 0.5; random2 := 0.5 |}.

(** Anchor selection by a keyword table, in priority order. *)
Definition keyword_table (calibration : Calibration)
  : list (list string * CalibrationPoint) :=
  [ (["cap"; "top"], cap calibration);
    (["middle"; "center"; "body"], middle calibration);
    (["bottom"; "base"], bottom calibration) ]%string.

Definition table_point (table : list (list string * CalibrationPoint))
           (default : CalibrationPoint) (ann : Annotation)
  : CalibrationPoint :=
  match List.find (fun entry =>
                     existsb (includes (toLowerCase (label ann))) (fst entry))
                  table with
  | Some entry => snd entry
  | None => default
  end.

(** The resolver as the specification words it: the first configured
    category whose name occurs, ignoring case, in the label; otherwise
    the default anchor. *)
Definition spec_category_table (calibration : Calibration)
  : list (string * CalibrationPoint) :=
  [ ("cap", cap calibration);
    ("middle", middle calibration);
    ("bottom", bottom calibration) ]%string.

Definition spec_anchor (calibration : Calibration) (ann : Annotation)
  : CalibrationPoint :=
  match List.find (fun entry =>
                     includes (toLowerCase (label ann)) (toLowerCase (fst entry)))
                  (spec_category_table calibration) with
  | Some entry => snd entry
  | None => cap calibration
  end.

Definition spec_resolve (calibration : Calibration) (ann : Annotation)
           (detectedBox : option DetectedBox) : option (Q * Q) :=
  match detectedBox with
  | Some box =>
      if (gt (width box) 0 && gt (height box) 0)%bool then
        let anchor := spec_anchor calibration ann in
        Some (x box + xPercent anchor * width box,
              y box + yPercent anchor * height box)
      else None
  | None => None
  end.

(** Equality of pixel positions as numbers. *)
Definition pixel_eq (p q : option (Q * Q)) : Prop :=
  match p, q with
  | Some (px, py), Some (qx, qy) => px == qx /\ py == qy
  | None, None => True
  | _, _ => False
  end.

Definition cap_marker : Annotation :=
  mkAnnotation (Str "a1") (0, 0, 0) "Cap marker".

Definition body_marker : Annotation :=
  mkAnnotation (Str "a2") (0, 0, 0) "Body".

(** [{x:100, y:50, w:200, h:400}] *)
Definition sample_box : DetectedBox :=
  mkDetectedBox 100 50 200 400 "bottle" 0.9.

(** A box of positive width and zero height. *)
Definition flat_box : DetectedBox :=
  mkDetectedBox 100 50 200 0 "bottle" 0.9.

End VideoFacts.

Module VisionFacts.
Import VideoCaptureVision.

(** [const [x3d, y3d] = ann.position] *)
Definition y3d (ann : Annotation) : Q := snd (fst (position ann)).

(** The linear mapping as the specification writes it:
    [normalizedY = (y - minY) / (maxY - minY)] and
    [pixelY = box.y + (1 - normalizedY) * box.height]. *)
Definition spec_normalizedY (bounds : ModelBounds) (y : Q) : Q :=
  (y - minY bounds) / (maxY bounds - minY bounds).

Definition spec_pixelY (bounds : ModelBounds) (box_y box_height y : Q) : Q :=
  box_y + (1 - spec_normalizedY bounds y) * box_height.

(** The frame sizes written in [detectWithVision]: the video is captured
    at 1280x720 and drawn on a 640x480 canvas before upload. *)
Definition nativeWidth : Q := 1280.
Definition nativeHeight : Q := 720.
Definition downsampleWidth : Q := 640.
Definition downsampleHeight : Q := 480.

Definition scaled_point (p q : Point) : Prop :=
  px q == px p * (nativeWidth / downsampleWidth)
  /\ py q == py p * (nativeHeight / downsampleHeight).

(** Remote answer with bbox (160, 120, 50, 50) and no parts. *)
Definition remote_answer : VisionResult :=
  mkVisionResult true (mkVisionBBox 160 120 50 50) 0.9 None.

(** [{x:0, y:0, w:100, h:200}] *)
Definition tall_box : DetectedBox :=
  mkDetectedBox 0 0 100 200 "bottle" 0.9 "coco-ssd" None.

Definition tall_bottle_box : VideoCaptureSimple.BottleBox :=
  VideoCaptureSimple.mkBottleBox 0 0 100 200.

Definition top_annotation : Annotation :=
  mkAnnotation (Str "top") (0, 1, 0) "Top".

Definition bottom_annotation : Annotation :=
  mkAnnotation (Str "bottom") (0, -1, 0) "Bottom".

(** A component state holding a box from an earlier cycle. *)
Definition tracking_state : State :=
  {| detectedBox := Some tall_box; useVision := true |}.

End VisionFacts.

Module StoreFacts.
Import UseAnnotations.

Definition a1 : Annotation := mkAnnotation (Str "a1") (0, 0, 0) "Cap".
Definition a2 : Annotation := mkAnnotation (Num 1700000000000) (0, 1, 0) "Body".

Definition session_with (anns : list Annotation)
           (socket : option ReadyState) : App.Session :=
  {| App.modelUrl := Some "http://localhost:8000/models/bottle.glb"%string;
     App.ws := socket;
     App.connected := is_open socket;
     App.annotations := anns;
     App.video := VisionFacts.tracking_state |}.

(** The remove-all sentinel passed by [resetApp]. *)
Definition remove_all_sentinel : value := Null.

(** [l1] is [l2] with some elements dropped, the others in order. *)
Inductive subsequence {A : Type} : list A -> list A -> Prop :=
| subsequence_nil : subsequence [] []
| subsequence_keep (a : A) (l1 l2 : list A) :
    subsequence l1 l2 -> subsequence (a :: l1) (a :: l2)
| subsequence_drop (a : A) (l1 l2 : list A) :
    subsequence l1 l2 -> subsequence l1 (a :: l2).

End StoreFacts.

(* ================================================================== *)
(** * Further code of the same files *)
(* ================================================================== *)

From Stdlib Require Sorted Permutation.

(** More JavaScript primitives. *)
Module JsText.

(** [a < b] and [a >= b] on numbers. *)
Definition lt (a b : Q) : bool := negb (Qle_bool b a).
Definition ge (a b : Q) : bool := Qle_bool b a.

(** [String.prototype.toUpperCase], for text of ASCII characters only: the
    Unicode case mapping of other characters is not modelled, and the
    result is [None] for a text that holds one. *)
Definition upper_char (c : ascii) : ascii :=
  let n := nat_of_ascii c in
  if (Nat.leb 97 n && Nat.leb n 122)%bool then ascii_of_nat (n - 32) else c.

Fixpoint toUpperCase (s : string) : option string :=
  match s with
  | EmptyString => Some EmptyString
  | String c s' =>
      if Nat.ltb (nat_of_ascii c) 128 then
        match toUpperCase s' with
        | Some upper => Some (String (upper_char c) upper)
        | None => None
        end
      else None
  end.

(** [ToBoolean] of a number that may be [null]. *)
Definition truthy_number (n : option Q) : bool :=
  match n with
  | Some q => negb (Qeq_bool q 0)
  | None => false
  end.

End JsText.

(* ------------------------------------------------------------------ *)
(** ** services/yoloDetection.js: the detector object and its singleton *)
(* ------------------------------------------------------------------ *)

Module YoloLoader.
Import YoloDetection.

(** [this.model] and [this.isLoading] of a [YOLODetector]. *)
Record YOLODetector (Video : Type) : Type := mkYOLODetector {
  model : option (ObjectDetector Video);
  isLoading : bool
}.
Arguments mkYOLODetector {Video} model isLoading.
Arguments model {Video} y.
Arguments isLoading {Video} y.

(** [new YOLODetector()] *)
Definition constructor {Video : Type} : YOLODetector Video :=
  {| model := None; isLoading := false |}.

(** [loadModel] up to its first [await]: the guard
    [if (this.isLoading || this.model) return], then [isLoading = true].
    [None] is the early return. *)
Definition loadModel_begin {Video : Type} (this : YOLODetector Video)
  : option (YOLODetector Video) :=
  if (isLoading this
      || match model this with Some _ => true | None => false end)%bool
  then None
  else Some {| model := model this; isLoading := true |}.

(** The rest of [loadModel]: [created] is the outcome of the [try] block
    (importing the library and creating the detector); [catch] sets the
    model to [null]; [finally] resets [isLoading]. *)
Definition loadModel_settle {Video : Type}
           (created : completion (ObjectDetector Video))
           (this : YOLODetector Video) : YOLODetector Video :=
  match created with
  | Normal m => {| model := Some m; isLoading := false |}
  | Throw _ => {| model := None; isLoading := false |}
  end.

(** A call of [loadModel] that runs to completion. *)
Definition loadModel {Video : Type}
           (created : completion (ObjectDetector Video))
           (this : YOLODetector Video) : YOLODetector Video :=
  match loadModel_begin this with
  | Some loading => loadModel_settle created loading
  | None => this
  end.

(** [getDetector]; [detectorInstance] is the module-level singleton.  The
    result is the new value of the singleton and the detector returned. *)
Definition getDetector {Video : Type}
           (created : completion (ObjectDetector Video))
           (detectorInstance : option (YOLODetector Video))
  : option (YOLODetector Video) * YOLODetector Video :=
  match detectorInstance with
  | None =>
      let d := loadModel created constructor in
      (Some d, d)
  | Some d => (Some d, d)
  end.

(** Successive calls of [getDetector], each with the outcome its load
    would have; the detectors returned are collected. *)
Fixpoint getDetector_calls {Video : Type}
         (outcomes : list (completion (ObjectDetector Video)))
         (detectorInstance : option (YOLODetector Video))
  : option (YOLODetector Video) * list (YOLODetector Video) :=
  match outcomes with
  | [] => (detectorInstance, [])
  | created :: rest =>
      let '(instance', d) := getDetector created detectorInstance in
      let '(final, ds) := getDetector_calls rest instance' in
      (final, d :: ds)
  end.

End YoloLoader.

(* ------------------------------------------------------------------ *)
(** ** components/VideoCapture.jsx: the HUD helpers *)
(* ------------------------------------------------------------------ *)

Module VideoCaptureHud.
Import JsText.

Definition getClearanceStatus (clearance : option Q) : string :=
  if negb (truthy_number clearance) then "safe"
  else match clearance with
       | Some c =>
           if lt c 3.0 then "danger"
           else if lt c 5.0 then "caution"
           else "safe"
       | None => "safe"
       end.

(** [trackingStatus === 'locked' && targetDistance], the condition under
    which the centre HUD is rendered. *)
Definition center_hud_shown (st : VideoCapture.State) : bool :=
  match VideoCapture.trackingStatus st with
  | VideoCapture.locked => truthy_number (VideoCapture.targetDistance st)
  | _ => false
  end.

(** [trackingStatus === 'locked' && clearanceDistance && clearanceDistance < 3.0],
    the condition under which the warning banner is rendered. *)
Definition warning_banner_shown (st : VideoCapture.State) : bool :=
  match VideoCapture.trackingStatus st with
  | VideoCapture.locked =>
      (truthy_number (VideoCapture.clearanceDistance st)
       && match VideoCapture.clearanceDistance st with
          | Some c => lt c 3.0
          | None => false
          end)%bool
  | _ => false
  end.

(** Successive runs of [detectLoop]: the state after the last one. *)
Fixpoint run_loop (cycles : list VideoCapture.Cycle) (st : VideoCapture.State)
  : completion VideoCapture.State :=
  match cycles with
  | [] => Normal st
  | c :: rest =>
      bind (VideoCapture.detectLoop (VideoCapture.readyState c)
              (VideoCapture.outcome c) (VideoCapture.random1 c)
              (VideoCapture.random2 c) st)
           (run_loop rest)
  end.

End VideoCaptureHud.

(* ------------------------------------------------------------------ *)
(** ** StructurePanel (same file as the vision-enabled video component) *)
(* ------------------------------------------------------------------ *)

Module StructurePanel.

Definition getStructureType (label : string) : string :=
  if (includes (toLowerCase label) "vessel"
      || includes (toLowerCase label) "artery"
      || includes (toLowerCase label) "vein")%bool then "vessel"
  else if includes (toLowerCase label) "nerve" then "nerve"
  else if (includes (toLowerCase label) "target"
           || includes (toLowerCase label) "tumor")%bool then "target"
  else "other".

Definition getStructureColor (type : string) : string :=
  if String.eqb type "vessel" then "#C62828"
  else if String.eqb type "nerve" then "#F57C00"
  else if String.eqb type "target" then "#1976D2"
  else "#9AA0A6".

End StructurePanel.

(* ------------------------------------------------------------------ *)
(** ** components/VideoCapture_Simple.jsx: manual calibration *)
(* ------------------------------------------------------------------ *)

Module SimpleCalibration.
Import VideoCaptureSimple.

(** [canvas.getBoundingClientRect()] *)
Record Rect : Type := mkRect {
  left : Q;
  top : Q;
  rect_width : Q;
  rect_height : Q
}.

(** The click event. *)
Record MouseEvent : Type := mkMouseEvent {
  clientX : Q;
  clientY : Q
}.

(** The [width] and [height] attributes of the canvas element. *)
Definition canvas_width : Q := 1280.
Definition canvas_height : Q := 720.

Record State : Type := mkState {
  bottleBox : option BottleBox;
  isCalibrating : bool
}.

Definition initial : State := {| bottleBox := None; isCalibrating := false |}.

Definition handleCanvasClick (rect : Rect) (e : MouseEvent) (st : State)
  : State :=
  if negb (isCalibrating st) then st
  else
    let scaleX := canvas_width / rect_width rect in
    let scaleY := canvas_height / rect_height rect in
    let x := (clientX e - left rect) * scaleX in
    let y := (clientY e - top rect) * scaleY in
    match bottleBox st with
    | None =>
        {| bottleBox := Some {| x := x; y := y; width := 0; height := 0 |};
           isCalibrating := isCalibrating st |}
    | Some box =>
        let width := x - VideoCaptureSimple.x box in
        let height := y - VideoCaptureSimple.y box in
        {| bottleBox := Some {| x := VideoCaptureSimple.x box;
                                y := VideoCaptureSimple.y box;
                                width := width;
                                height := height |};
           isCalibrating := false |}
    end.

(** The "Calibrate Bottle Position" button. *)
Definition calibrate (st : State) : State :=
  {| bottleBox := bottleBox st; isCalibrating := true |}.

(** The "Recalibrate" button. *)
Definition recalibrate (st : State) : State :=
  {| bottleBox := None; isCalibrating := true |}.

End SimpleCalibration.

(* ------------------------------------------------------------------ *)
(** ** components/ModelViewer.jsx: a click on the model *)
(* ------------------------------------------------------------------ *)

Module ModelViewer.

(** [handleClick]: the annotation handed to [onModelClick]; [point] is
    [event.point] and [now] the value of [Date.now()]. *)
Definition handleClick (now : Q) (point : Q * Q * Q) : Annotation :=
  let '(px, py, pz) := point in
  {| ann_id := Num now; position := (px, py, pz); label := "Annotation" |}.

End ModelViewer.

(* ------------------------------------------------------------------ *)
(** ** App.js: path drawing and annotation clicks *)
(* ------------------------------------------------------------------ *)

Module AppPath.

Record State : Type := mkState {
  isDrawingPath : bool;
  pathPoints : list (Q * Q * Q);
  annotations : list Annotation
}.

(** [handlePathPointClick]: the new state and the messages sent. *)
Definition handlePathPointClick (ws : option UseAnnotations.ReadyState)
           (now : Q) (point : Annotation) (st : State)
  : State * list UseAnnotations.Message :=
  if isDrawingPath st then
    ({| isDrawingPath := isDrawingPath st;
        pathPoints := pathPoints st ++ [position point];
        annotations := annotations st |}, [])
  else
    let '(anns, sent) :=
      UseAnnotations.addAnnotation ws now point (annotations st) in
    ({| isDrawingPath := isDrawingPath st;
        pathPoints := pathPoints st;
        annotations := anns |}, sent).

(** The three callbacks handed to [IncisionPlanner]. *)
Definition onStartDrawing (st : State) : State :=
  {| isDrawingPath := true; pathPoints := []; annotations := annotations st |}.

Definition onFinishDrawing (st : State) : State :=
  {| isDrawingPath := false; pathPoints := pathPoints st;
     annotations := annotations st |}.

Definition onClearPath (st : State) : State :=
  {| isDrawingPath := false; pathPoints := []; annotations := annotations st |}.

(** Successive clicks on the model, each with its clock value. *)
Fixpoint clicks (ws : option UseAnnotations.ReadyState)
         (events : list (Q * Annotation)) (st : State)
  : State * list UseAnnotations.Message :=
  match events with
  | [] => (st, [])
  | (now, point) :: rest =>
      let '(st1, sent1) := handlePathPointClick ws now point st in
      let '(st2, sent2) := clicks ws rest st1 in
      (st2, sent1 ++ sent2)
  end.

End AppPath.

(* ------------------------------------------------------------------ *)
(** ** components/IncisionPlanner.jsx *)
(* ------------------------------------------------------------------ *)

Module IncisionPlanner.
Import JsText.

Record State (Analysis : Type) : Type := mkState {
  pathAnalysis : option Analysis;
  loading : bool
}.
Arguments mkState {Analysis} pathAnalysis loading.
Arguments pathAnalysis {Analysis} s.
Arguments loading {Analysis} s.

(** [handleFinishDrawing]; [response] is the outcome of the request and of
    parsing its answer.  The result is the state of [App], the state of the
    planner and the alerts shown. *)
Definition handleFinishDrawing {Analysis : Type}
           (response : completion Analysis)
           (app : AppPath.State) (st : State Analysis)
  : AppPath.State * State Analysis * list string :=
  if Nat.ltb (List.length (AppPath.pathPoints app)) 2 then
    (AppPath.onClearPath app, st,
     ["Need at least 2 points to create an incision path"]%string)
  else
    match response with
    | Normal analysis =>
        (AppPath.onFinishDrawing app,
         {| pathAnalysis := Some analysis; loading := false |}, [])
    | Throw _ =>
        (app, {| pathAnalysis := pathAnalysis st; loading := false |},
         ["Failed to analyze path. Please try again."]%string)
    end.

Definition getSegmentColor (confidence : Q) : string :=
  if ge confidence 0.80 then "#2E7D32"
  else if ge confidence 0.60 then "#F57C00"
  else "#C62828".

Definition getSegmentStatus (confidence : Q) : string :=
  if ge confidence 0.80 then "safe"
  else if ge confidence 0.60 then "caution"
  else "danger".

Definition getClearanceFromConfidence (confidence : Q) : string :=
  if ge confidence 0.90 then ">15mm"
  else if ge confidence 0.80 then "12-15mm"
  else if ge confidence 0.70 then "8-12mm"
  else if ge confidence 0.60 then "5-8mm"
  else "<5mm".

End IncisionPlanner.

(* ------------------------------------------------------------------ *)
(** ** CoordinateTransformer *)
(* ------------------------------------------------------------------ *)

Module CoordinateTransformer.
Import JsText.

Record Vector3 : Type := mkVector3 {
  vx : Q;
  vy : Q;
  vz : Q
}.

Record ScreenPoint : Type := mkScreenPoint {
  sx : Q;
  sy : Q;
  inView : bool
}.

(** [worldToScreen]; [project] is [Vector3.project(this.camera)] of the
    3D library, which maps a world position to normalized device
    coordinates. *)
Definition worldToScreen (project : Vector3 -> Vector3)
           (canvas_width canvas_height : Q) (position : Vector3)
  : ScreenPoint :=
  let vector := project position in
  {| sx := (vx vector * 0.5 + 0.5) * canvas_width;
     sy := (vy vector * -0.5 + 0.5) * canvas_height;
     inView := lt (vz vector) 1 |}.

End CoordinateTransformer.

(* ------------------------------------------------------------------ *)
(** ** Sequences of store operations and their replication *)
(* ------------------------------------------------------------------ *)

Module Replication.
Import UseAnnotations.

(** A call of one of the two mutating operations of the hook. *)
Inductive LocalOp : Type :=
| op_add (now : Q) (annotation : Annotation)
| op_remove (id : value).

Definition apply_op (websocket : option ReadyState) (op : LocalOp)
           (prev : list Annotation) : list Annotation * list Message :=
  match op with
  | op_add now annotation => addAnnotation websocket now annotation prev
  | op_remove id => removeAnnotation websocket id prev
  end.

(** Successive local operations: the final sequence and everything sent. *)
Fixpoint run_local (websocket : option ReadyState) (ops : list LocalOp)
         (prev : list Annotation) : list Annotation * list Message :=
  match ops with
  | [] => (prev, [])
  | op :: rest =>
      let '(next, sent1) := apply_op websocket op prev in
      let '(final, sent2) := run_local websocket rest next in
      (final, sent1 ++ sent2)
  end.

(** Successive deliveries of parsed messages to [handleMessage]. *)
Fixpoint deliver (messages : list Message) (prev : list Annotation)
  : completion (list Annotation) :=
  match messages with
  | [] => Normal prev
  | m :: rest => bind (handleMessage (Normal m) prev) (deliver rest)
  end.

(** The clock values used by the operations. *)
Definition clock_of (op : LocalOp) : option Q :=
  match op with
  | op_add now _ => Some now
  | op_remove _ => None
  end.

End Replication.

(* ------------------------------------------------------------------ *)
(** ** Vocabulary of the further statements *)
(* ------------------------------------------------------------------ *)

Module MoreFacts.
Import YoloDetection YoloFacts.

(** The object built from a detection by the callback of [.map]. *)
Definition built_object (d : Detection) : BottleObject :=
  object_of d (match top_category d with
               | Some c => c
               | None => mkCategory EmptyString 0
               end).

(** [a] may stand before [b] in a list sorted by descending confidence. *)
Definition descending (a b : BottleObject) : Prop :=
  obj_score b <= obj_score a.


(** The bottle of the person, bottle, chair example, as an object. *)
Definition bottle_object : BottleObject :=
  built_object (mkDetection [mkCategory "bottle" 0.4] unit_box).

(** [const [x3d, y3d] = ann.position] *)
Definition x3d (ann : Annotation) : Q := fst (fst (position ann)).

(** The three anchor heights of the calibration of [VideoCapture.jsx]. *)
Definition anchor_heights : list Q := [0.15; 0.5; 0.85].

(** A remote answer with the three part positions. *)
Definition remote_answer_with_parts : VideoCaptureVision.VisionResult :=
  VideoCaptureVision.mkVisionResult
    true (VideoCaptureVision.mkVisionBBox 160 120 50 200) 0.9
    (Some (VideoCaptureVision.mkParts
             (VideoCaptureVision.mkPoint 185 130)
             (VideoCaptureVision.mkPoint 185 220)
             (VideoCaptureVision.mkPoint 185 310))).

(** A rectangle lies within a frame of the given size. *)
Definition within_frame (frame_width frame_height bx by_ bw bh : Q) : Prop :=
  0 <= bx /\ 0 <= by_ /\ 0 <= bw /\ 0 <= bh
  /\ bx + bw <= frame_width /\ by_ + bh <= frame_height.

Definition point_within_frame (frame_width frame_height : Q)
           (p : VideoCaptureVision.Point) : Prop :=
  0 <= VideoCaptureVision.px p <= frame_width
  /\ 0 <= VideoCaptureVision.py p <= frame_height.

(** The canvas point of a click: the x and y computed by
    [handleCanvasClick]. *)
Definition canvas_x (rect : SimpleCalibration.Rect)
           (e : SimpleCalibration.MouseEvent) : Q :=
  (SimpleCalibration.clientX e - SimpleCalibration.left rect)
  * (SimpleCalibration.canvas_width / SimpleCalibration.rect_width rect).

Definition canvas_y (rect : SimpleCalibration.Rect)
           (e : SimpleCalibration.MouseEvent) : Q :=
  (SimpleCalibration.clientY e - SimpleCalibration.top rect)
  * (SimpleCalibration.canvas_height / SimpleCalibration.rect_height rect).

(** A canvas shown at half its size, and two clicks on it. *)
Definition half_size_rect : SimpleCalibration.Rect :=
  SimpleCalibration.mkRect 10 20 640 360.

Definition first_click : SimpleCalibration.MouseEvent :=
  SimpleCalibration.mkMouseEvent 110 70.

Definition second_click : SimpleCalibration.MouseEvent :=
  SimpleCalibration.mkMouseEvent 210 270.

(** Paths of one and of two points, in drawing mode. *)
Definition one_point_path : AppPath.State :=
  AppPath.mkState true [(1, 2, 3)] [].

Definition two_point_path : AppPath.State :=
  AppPath.mkState true [(1, 2, 3); (4, 5, 6)] [].

(** [{ ...ann, label: l }] *)
Definition with_label (ann : Annotation) (l : string) : Annotation :=
  {| ann_id := ann_id ann; position := position ann; label := l |}.

End MoreFacts.

(* ================================================================== *)
(** * Facts about services/yoloDetection.js *)
(* ================================================================== *)

Section YoloDetectionProofs.
Import YoloDetection YoloFacts.

Lemma filter_callback_total (d : Detection) :
  categories d <> [] -> filter_callback d = Normal (accepted d).
Proof.
  unfold filter_callback, accepted, top_category.
  destruct (categories d) as [|c cs]; [congruence|]. reflexivity.
Qed.

Lemma filter_never_throws (ds : list Detection) :
  Forall (fun d => categories d <> []) ds ->
  Js.filter filter_callback ds = Normal (List.filter accepted ds).
Proof.
  induction 1 as [|d ds Hd _ IH]; simpl; [reflexivity|].
  rewrite (filter_callback_total d Hd), IH. simpl.
  destruct (accepted d); reflexivity.
Qed.

Lemma map_never_throws (ds : list Detection) :
  Forall (fun d => categories d <> []) ds ->
  exists objs,
    Js.map map_callback ds = Normal objs /\
    Forall2 (fun d o => exists c, top_category d = Some c /\ o = object_of d c)
            ds objs.
Proof.
  induction 1 as [|d ds Hd _ [objs [E F]]]; simpl.
  - exists []. split; [reflexivity|constructor].
  - unfold map_callback at 1.
    destruct (categories d) as [|c cs] eqn:Ec; [congruence|]. simpl.
    rewrite E. simpl. eexists. split; [reflexivity|].
    constructor; [|exact F].
    exists c. split; [unfold top_category; rewrite Ec; reflexivity|].
    reflexivity.
Qed.

Lemma Forall2_In_right {A B : Type} (R : A -> B -> Prop) l l' (y : B) :
  Forall2 R l l' -> In y l' -> exists x : A, In x l /\ R x y.
Proof.
  induction 1 as [|a b l l' Hab _ IH]; simpl; [tauto|].
  intros [<-|Hin].
  - exists a. auto.
  - destruct (IH Hin) as [a' [Ha' Hr]]. exists a'. auto.
Qed.

Lemma Forall2_In_left {A B : Type} (R : A -> B -> Prop) l l' (x : A) :
  Forall2 R l l' -> In x l -> exists y : B, In y l' /\ R x y.
Proof.
  induction 1 as [|a b l l' Hab _ IH]; simpl; [tauto|].
  intros [<-|Hin].
  - exists b. auto.
  - destruct (IH Hin) as [b' [Hb' Hr]]. exists b'. auto.
Qed.

(** The first element after sorting by confidence has the largest score. *)
Lemma sort_by_confidence_head (l : list BottleObject) :
  match sort by_confidence l with
  | [] => l = []
  | best :: _ =>
      In best l /\ forall o, In o l -> obj_score o <= obj_score best
  end.
Proof.
  induction l as [|a l IH]; simpl; [reflexivity|].
  destruct (sort by_confidence l) as [|h t]; simpl.
  - subst l. split; [auto|].
    intros o [<-|[]]. apply Qle_refl.
  - destruct IH as [Hin Hmax].
    unfold by_confidence at 1.
    destruct (Qle_bool (obj_score h - obj_score a) 0) eqn:E.
    + apply Qle_bool_iff in E. split; [auto|].
      intros o [<-|Ho]; [apply Qle_refl|].
      specialize (Hmax o Ho). lra.
    + assert (~ obj_score h - obj_score a <= 0) as Hn.
      { intro Hle. apply Qle_bool_iff in Hle. congruence. }
      split; [auto|].
      intros o [<-|Ho]; [lra|auto].
Qed.

Lemma detectObjects_never_throws {Video : Type}
      (model : option (ObjectDetector Video)) (videoElement : option Video) :
  exists objects, detectObjects model videoElement = Normal objects.
Proof.
  unfold detectObjects.
  destruct model as [m|], videoElement as [v|]; try (eexists; reflexivity).
  unfold try_catch.
  match goal with |- context [match ?c with _ => _ end] => destruct c end;
    eexists; reflexivity.
Qed.

Lemma detectBottle_never_throws {Video : Type}
      (model : option (ObjectDetector Video)) (videoElement : option Video) :
  exists r, detectBottle model videoElement = Normal r.
Proof.
  unfold detectBottle.
  destruct (detectObjects_never_throws model videoElement) as [objs ->].
  simpl. destruct objs; eexists; reflexivity.
Qed.

Lemma filter_throws_on_malformed (ds : list Detection) :
  Exists (fun d => categories d = []) ds ->
  exists e, Js.filter filter_callback ds = Throw e.
Proof.
  induction 1 as [d ds Hd|d ds _ [e IH]]; simpl.
  - unfold filter_callback. rewrite Hd. simpl. eexists; reflexivity.
  - destruct (filter_callback d) as [keep|e']; simpl;
      [rewrite IH; simpl|]; eexists; reflexivity.
Qed.

Lemma isBottleLike_allow_list (name : string) :
  isBottleLike name = true <-> In name allow_list.
Proof.
  unfold isBottleLike, allow_list. simpl.
  rewrite !orb_true_iff, !String.eqb_eq. intuition congruence.
Qed.

Lemma well_formed_or_malformed (ds : list Detection) :
  Forall (fun d => categories d <> []) ds
  \/ Exists (fun d => categories d = []) ds.
Proof.
  induction ds as [|d ds [IH|IH]].
  - left. constructor.
  - destruct (categories d) as [|c cs] eqn:E.
    + right. apply Exists_cons_hd. exact E.
    + left. constructor; [rewrite E; discriminate|exact IH].
  - right. apply Exists_cons_tl. exact IH.
Qed.

Lemma detectBottle_well_formed {Video : Type} (model : ObjectDetector Video)
      (video : Video) (ds : list Detection) :
  model video = Normal (mkDetectorResult ds) ->
  Forall (fun d => categories d <> []) ds ->
  exists r,
    detectBottle (Some model) (Some video) = Normal r /\
    match r with
    | Some best =>
        isBottleLike (class best) = true /\
        (exists d c, In d ds /\ top_category d = Some c /\
                     best = object_of d c) /\
        (forall d c, In d ds -> top_category d = Some c ->
                     isBottleLike (categoryName c) = true ->
                     score c <= obj_score best)
    | None =>
        forall d c, In d ds -> top_category d = Some c ->
                    isBottleLike (categoryName c) = false
    end.
Proof.
  intros Hrun Hwf.
  unfold detectBottle, detectObjects. rewrite Hrun. simpl.
  rewrite (filter_never_throws ds Hwf). simpl.
  assert (Forall (fun d => categories d <> []) (List.filter accepted ds)) as Hwf'.
  { rewrite Forall_forall in *. intros d Hd. apply filter_In in Hd.
    apply Hwf, Hd. }
  destruct (map_never_throws _ Hwf') as [objs [-> HF]]. simpl.
  pose proof (sort_by_confidence_head objs) as Hs.
  destruct (sort by_confidence objs) as [|best rest].
  - subst objs. eexists. split; [reflexivity|].
    intros d c Hd Hc.
    destruct (isBottleLike (categoryName c)) eqn:Ea; [|reflexivity].
    assert (In d (List.filter accepted ds)) as Hin.
    { apply filter_In. split; [exact Hd|]. unfold accepted. rewrite Hc. exact Ea. }
    inversion HF as [Hnil|]. rewrite <- Hnil in Hin. destruct Hin.
  - destruct Hs as [Hbest Hmax].
    eexists. split; [reflexivity|].
    destruct (Forall2_In_right _ _ _ _ HF Hbest) as [d [Hd [c [Hc Hb]]]].
    apply filter_In in Hd. destruct Hd as [Hd Hacc].
    split; [|split].
    + subst best. simpl. unfold accepted in Hacc. rewrite Hc in Hacc. exact Hacc.
    + exists d, c. auto.
    + intros d' c' Hd' Hc' Ha'.
      assert (In d' (List.filter accepted ds)) as Hin.
      { apply filter_In. split; [exact Hd'|]. unfold accepted. rewrite Hc'. exact Ha'. }
      destruct (Forall2_In_left _ _ _ _ HF Hin) as [o [Ho [c2 [Hc2 Eo]]]].
      rewrite Hc' in Hc2. injection Hc2 as <-.
      specialize (Hmax o Ho). subst o. simpl in Hmax. exact Hmax.
Qed.

(** C1. For every frame on which the loaded detector reports detections,
    [detectBottle] returns at most one object.  When it returns one, its
    category is one of bottle, cup and wine glass, it is built from one of
    the reported detections, and no reported detection with a category of
    that list has a higher confidence: every detection of another category
    is discarded, whatever its confidence.  When every reported detection
    carries a category, it returns nothing only if no reported detection
    has a category of the list.  For {person:0.9, bottle:0.4, chair:0.95}
    the result is the bottle at 0.4. *)
Theorem C1_detectBottle_best_allowed :
  (forall (Video : Type) (model : ObjectDetector Video) (video : Video)
          (ds : list Detection),
      model video = Normal (mkDetectorResult ds) ->
      exists r,
        detectBottle (Some model) (Some video) = Normal r /\
        match r with
        | Some best =>
            In (class best) ["bottle"; "cup"; "wine glass"]%string /\
            (exists d c, In d ds /\ top_category d = Some c /\
                         best = object_of d c) /\
            (forall d c, In d ds -> top_category d = Some c ->
                         In (categoryName c)
                            ["bottle"; "cup"; "wine glass"]%string ->
                         score c <= obj_score best)
        | None =>
            Forall (fun d => categories d <> []) ds ->
            forall d c, In d ds -> top_category d = Some c ->
                        ~ In (categoryName c)
                             ["bottle"; "cup"; "wine glass"]%string
        end)
  /\ detectBottle (Some (detector person_bottle_chair)) (Some tt)
     = Normal (Some (object_of (mkDetection [mkCategory "bottle" 0.4] unit_box)
                               (mkCategory "bottle" 0.4))).
Proof.
  split; [|reflexivity].
  intros Video model video ds Hrun.
  fold allow_list.
  destruct (well_formed_or_malformed ds) as [Hwf|Hbad].
  - destruct (detectBottle_well_formed model video ds Hrun Hwf) as [r [E Hr]].
    exists r. split; [exact E|].
    destruct r as [best|].
    + destruct Hr as [Hclass [Hfrom Hmax]].
      split; [apply isBottleLike_allow_list, Hclass|].
      split; [exact Hfrom|].
      intros d c Hd Hc Ha. apply (Hmax d c Hd Hc).
      apply isBottleLike_allow_list, Ha.
    + intros _ d c Hd Hc Ha. apply isBottleLike_allow_list in Ha.
      rewrite (Hr d c Hd Hc) in Ha. discriminate.
  - exists None. split.
    + unfold detectBottle, detectObjects. rewrite Hrun. simpl.
      destruct (filter_throws_on_malformed ds Hbad) as [e ->]. reflexivity.
    + intros Hwf. exfalso.
      apply Exists_exists in Hbad. destruct Hbad as [d [Hd Hempty]].
      rewrite Forall_forall in Hwf. exact (Hwf d Hd Hempty).
Qed.

Lemma C1_detectBottle_best_allowed_witness :
  detector person_bottle_chair tt = Normal (mkDetectorResult person_bottle_chair)
  /\ exists r,
      detectBottle (Some (detector person_bottle_chair)) (Some tt) = Normal r /\
      match r with
      | Some best =>
          In (class best) ["bottle"; "cup"; "wine glass"]%string /\
          (exists d c, In d person_bottle_chair /\ top_category d = Some c /\
                       best = object_of d c) /\
          (forall d c, In d person_bottle_chair -> top_category d = Some c ->
                       In (categoryName c)
                          ["bottle"; "cup"; "wine glass"]%string ->
                       score c <= obj_score best)
      | None =>
          Forall (fun d => categories d <> []) person_bottle_chair ->
          forall d c, In d person_bottle_chair -> top_category d = Some c ->
                      ~ In (categoryName c)
                           ["bottle"; "cup"; "wine glass"]%string
      end.
Proof.
  split; [reflexivity|].
  apply (proj1 C1_detectBottle_best_allowed unit
               (detector person_bottle_chair) tt person_bottle_chair).
  reflexivity.
Defined.

End YoloDetectionProofs.

(* ================================================================== *)
(** * Facts about components/VideoCapture.jsx *)
(* ================================================================== *)

Section VideoCaptureProofs.
Import VideoCapture VideoFacts.

Lemma gt_true_iff (a b : Q) : gt a b = true <-> b < a.
Proof.
  unfold gt. rewrite negb_true_iff.
  split.
  - intro H. apply Qnot_le_lt. intro Hle.
    apply Qle_bool_iff in Hle. congruence.
  - intro H. destruct (Qle_bool a b) eqn:E; [|reflexivity].
    apply Qle_bool_iff in E. lra.
Qed.

Lemma gt_false_iff (a b : Q) : gt a b = false <-> a <= b.
Proof.
  unfold gt. rewrite negb_false_iff. apply Qle_bool_iff.
Qed.

Lemma detectLoop_status (outcome : completion (option YoloDetection.BottleObject))
      (r1 r2 : Q) (st : State) :
  exists st',
    detectLoop (Some 4%Z) outcome r1 r2 st = Normal st' /\
    trackingStatus st' = expected_status outcome.
Proof.
  destruct outcome as [[b|]|e]; simpl; eexists; split; reflexivity.
Qed.

(** A frame on which the video is not ready leaves the state alone. *)
Lemma detectLoop_not_ready (readyState : option Z)
      (outcome : completion (option YoloDetection.BottleObject))
      (r1 r2 : Q) (st : State) :
  readyState <> Some 4%Z ->
  detectLoop readyState outcome r1 r2 st = Normal st.
Proof.
  intro H. unfold detectLoop.
  destruct readyState as [z|]; [|reflexivity].
  destruct z as [|p|p]; try reflexivity.
  destruct p as [p|p|]; try reflexivity.
  destruct p as [p|p|]; try reflexivity.
  destruct p as [p|p|]; try reflexivity.
  congruence.
Qed.

(** With the repository's detector the detection attempt never throws, so
    the loop never reports [lost]. *)
Remark detectLoop_yolo_never_lost {Video : Type}
       (model : option (YoloDetection.ObjectDetector Video))
       (videoElement : option Video) (r1 r2 : Q) (st : State) :
  exists st',
    detectLoop (Some 4%Z) (YoloDetection.detectBottle model videoElement) r1 r2 st
    = Normal st'
    /\ trackingStatus st' <> lost.
Proof.
  destruct (detectBottle_never_throws model videoElement) as [r ->].
  destruct r; simpl; eexists; (split; [reflexivity|discriminate]).
Qed.

(** C2. One run of [detectLoop] on a ready video never throws and sets the
    tracking status from the outcome of the detection attempt alone: a box
    gives [locked], no box gives [searching], an error gives [lost]; the
    initial status is [searching]; over any sequence of ready frames the
    recorded statuses are the statuses of the outcomes, and the outcomes
    [box, box, none, exception] give [locked, locked, searching, lost]. *)
Theorem C2_tracking_status_step :
  (forall (c : Cycle) (st : State),
      readyState c = Some 4%Z ->
      exists st',
        detectLoop (readyState c) (outcome c) (random1 c) (random2 c) st
        = Normal st' /\
        trackingStatus st' = expected_status (outcome c))
  /\ (forall b, expected_status (Normal (Some b)) = locked)
  /\ expected_status (Normal None) = searching
  /\ (forall e, expected_status (Throw e) = lost)
  /\ trackingStatus initial = searching
  /\ (forall (cycles : list Cycle) (st : State),
         Forall (fun c => readyState c = Some 4%Z) cycles ->
         run_cycles cycles st
         = Normal (List.map (fun c => expected_status (outcome c)) cycles))
  /\ (forall b1 b2 e,
         run_cycles [ready (Normal (Some b1)); ready (Normal (Some b2));
                     ready (Normal None); ready (Throw e)]
                    initial
         = Normal [locked; locked; searching; lost]).
Proof.
  split; [|split; [|split; [|split; [|split; [|split]]]]]; try reflexivity.
  - intros c st ->. apply detectLoop_status.
  - intros cycles st H. revert st.
    induction H as [|c cycles Hc _ IH]; intro st; simpl; [reflexivity|].
    rewrite Hc.
    destruct (detectLoop_status (outcome c) (random1 c) (random2 c) st)
      as [st' [-> Hs]].
    simpl. rewrite IH. simpl. rewrite Hs. reflexivity.
Qed.

Lemma C2_tracking_status_step_witness :
  readyState (ready (Throw "TypeError")) = Some 4%Z
  /\ (exists st',
         detectLoop (readyState (ready (Throw "TypeError")))
                    (outcome (ready (Throw "TypeError")))
                    (random1 (ready (Throw "TypeError")))
                    (random2 (ready (Throw "TypeError"))) initial
         = Normal st' /\
         trackingStatus st' = expected_status (outcome (ready (Throw "TypeError"))))
  /\ Forall (fun c => readyState c = Some 4%Z)
            [ready (Normal None); ready (Throw "TypeError")]
  /\ run_cycles [ready (Normal None); ready (Throw "TypeError")] initial
     = Normal [searching; lost].
Proof.
  assert (Forall (fun c => readyState c = Some 4%Z)
                 [ready (Normal None); ready (Throw "TypeError")]) as Hready.
  { repeat constructor. }
  split; [reflexivity|]. split; [|split; [exact Hready|]].
  - apply (proj1 C2_tracking_status_step (ready (Throw "TypeError")) initial).
    reflexivity.
  - exact (proj1 (proj2 (proj2 (proj2 (proj2 (proj2 C2_tracking_status_step)))))
                 [ready (Normal None); ready (Throw "TypeError")] initial Hready).
Defined.

(** The if-chain of [draw] is a lookup in the keyword table. *)
Lemma calibration_point_table (cal : Calibration) (ann : Annotation) :
  calibration_point cal ann = table_point (keyword_table cal) (cap cal) ann.
Proof.
  unfold calibration_point, table_point, keyword_table. simpl.
  rewrite !orb_false_r.
  destruct (includes (toLowerCase (label ann)) "cap"); simpl; [reflexivity|].
  destruct (includes (toLowerCase (label ann)) "top"); simpl; [reflexivity|].
  destruct (includes (toLowerCase (label ann)) "middle"); simpl; [reflexivity|].
  destruct (includes (toLowerCase (label ann)) "center"); simpl; [reflexivity|].
  destruct (includes (toLowerCase (label ann)) "body"); simpl; [reflexivity|].
  destruct (includes (toLowerCase (label ann)) "bottom"); simpl; [reflexivity|].
  destruct (includes (toLowerCase (label ann)) "base"); reflexivity.
Qed.

Lemma resolve_positive_width (cal : Calibration) (ann : Annotation)
      (box : DetectedBox) :
  0 < width box ->
  resolve cal ann (Some box)
  = Some (x box + xPercent (calibration_point cal ann) * width box,
          y box + yPercent (calibration_point cal ann) * height box).
Proof.
  intro Hw. unfold resolve, draw. simpl.
  rewrite (proj2 (gt_true_iff _ _) Hw). reflexivity.
Qed.

(** A box that is absent or has no positive width yields no marker. *)
Lemma resolve_no_box (cal : Calibration) (ann : Annotation) :
  resolve cal ann None = None.
Proof. reflexivity. Qed.

Lemma resolve_width_not_positive (cal : Calibration) (ann : Annotation)
      (box : DetectedBox) :
  width box <= 0 -> resolve cal ann (Some box) = None.
Proof.
  intro Hw. unfold resolve, draw. simpl.
  rewrite (proj2 (gt_false_iff _ _) Hw). reflexivity.
Qed.

(** C3, as stated, fails: the label "Body" contains none of the category
    names cap, middle, bottom, so the stated resolver uses the default
    anchor, whereas [draw] places the marker at the middle anchor. *)
Lemma C3_counterexample_body_label :
  List.find (fun entry =>
               includes (toLowerCase (label body_marker)) (toLowerCase (fst entry)))
            (spec_category_table calibration) = None
  /\ pixel_eq (resolve calibration body_marker (Some sample_box))
              (Some (200, 250))
  /\ pixel_eq (spec_resolve calibration body_marker (Some sample_box))
              (Some (200, 110))
  /\ ~ pixel_eq (resolve calibration body_marker (Some sample_box))
                (spec_resolve calibration body_marker (Some sample_box)).
Proof.
  repeat split; try reflexivity.
  vm_compute. intros [_ H]. discriminate H.
Qed.

(** C3, amended. For every annotation and every present, non-degenerate
    box, the resolver selects the anchor of the first category, in the
    order cap, middle, bottom, one of whose keywords (cap: cap, top;
    middle: middle, center, body; bottom: bottom, base) occurs in the
    lower-cased label, falling back to the cap anchor when none occurs,
    and returns
    (box.x + anchor.xPercent * box.width, box.y + anchor.yPercent * box.height).
    "Cap marker" with cap = (0.5, 0.15) and box (100, 50, 200, 400)
    resolves to (200, 110). *)
Theorem C3_resolve_keyword_anchor :
  (forall (cal : Calibration) (ann : Annotation) (box : DetectedBox),
      0 < width box -> 0 < height box ->
      let anchor := table_point (keyword_table cal) (cap cal) ann in
      resolve cal ann (Some box)
      = Some (x box + xPercent anchor * width box,
              y box + yPercent anchor * height box))
  /\ pixel_eq (resolve calibration cap_marker (Some sample_box))
              (Some (200, 110)).
Proof.
  split.
  - intros cal ann box Hw Hh anchor. subst anchor.
    rewrite <- calibration_point_table.
    apply resolve_positive_width, Hw.
  - vm_compute. split; reflexivity.
Qed.

Lemma C3_resolve_keyword_anchor_witness :
  0 < width sample_box
  /\ 0 < height sample_box
  /\ resolve calibration cap_marker (Some sample_box)
     = Some (x sample_box
             + xPercent (table_point (keyword_table calibration)
                                     (cap calibration) cap_marker)
               * width sample_box,
             y sample_box
             + yPercent (table_point (keyword_table calibration)
                                     (cap calibration) cap_marker)
               * height sample_box).
Proof.
  split; [reflexivity|]. split; [reflexivity|].
  apply (proj1 C3_resolve_keyword_anchor calibration cap_marker sample_box);
    reflexivity.
Defined.

(** C5, at the failing input: for a present box of positive width and
    height 0, [draw] still computes a marker for the annotation. *)
Theorem C5_draw_ignores_height :
  height flat_box <= 0
  /\ pixel_eq (resolve calibration cap_marker (Some flat_box)) (Some (200, 50))
  /\ List.length (markers (draw calibration (Some flat_box) [cap_marker; body_marker]))
     = 2%nat.
Proof.
  split; [|split].
  - vm_compute. discriminate.
  - vm_compute. split; reflexivity.
  - reflexivity.
Qed.

End VideoCaptureProofs.

(* ================================================================== *)
(** * Facts about the vision-enabled video component and
      components/VideoCapture_Simple.jsx *)
(* ================================================================== *)

Section VisionProofs.
Import VideoCaptureVision VisionFacts.

(** The code's bounds put the vertical axis on [-1, 1]. *)
Lemma normalizedY_unit_interval (v : Q) :
  minY modelBounds <= v <= maxY modelBounds ->
  0 <= spec_normalizedY modelBounds v <= 1.
Proof.
  unfold spec_normalizedY, modelBounds. simpl. intros [Hlo Hhi].
  assert (((v - -1.0) / (1.0 - -1.0)) == (v + 1) * (1 # 2)) as E by (field).
  rewrite E. split; lra.
Qed.

Lemma spec_pixelY_in_box (box_y box_height v : Q) :
  0 < box_height ->
  minY modelBounds <= v <= maxY modelBounds ->
  box_y <= spec_pixelY modelBounds box_y box_height v <= box_y + box_height.
Proof.
  intros Hh Hv. unfold spec_pixelY.
  destruct (normalizedY_unit_interval v Hv) as [H0 H1].
  set (n := spec_normalizedY modelBounds v) in *.
  split; nra.
Qed.

Lemma draw_markers_valid (bounds : ModelBounds) (box : DetectedBox)
      (anns : list Annotation) :
  0 < width box -> 0 < height box ->
  markers (draw bounds (Some box) anns) = List.map (draw_marker bounds box) anns.
Proof.
  intros Hw Hh. unfold draw, valid_box. simpl.
  rewrite (proj2 (gt_true_iff _ _) Hw), (proj2 (gt_true_iff _ _) Hh). simpl.
  destruct anns; reflexivity.
Qed.

Lemma simple_draw_valid (bounds : ModelBounds)
      (box : VideoCaptureSimple.BottleBox) (anns : list Annotation) :
  0 < VideoCaptureSimple.width box -> 0 < VideoCaptureSimple.height box ->
  VideoCaptureSimple.draw bounds (Some box) anns
  = List.map (VideoCaptureSimple.draw_marker bounds box) anns.
Proof.
  intros Hw Hh. unfold VideoCaptureSimple.draw, VideoCaptureSimple.valid_box.
  rewrite (proj2 (gt_true_iff _ _) Hw), (proj2 (gt_true_iff _ _) Hh). simpl.
  destruct anns; reflexivity.
Qed.

Lemma draw_marker_videoY (bounds : ModelBounds) (box : DetectedBox)
      (ann : Annotation) :
  videoY (draw_marker bounds box ann)
  = spec_pixelY bounds (y box) (height box) (y3d ann).
Proof.
  unfold draw_marker, y3d. destruct (position ann) as [[a b] c]. reflexivity.
Qed.

Lemma simple_draw_marker_videoY (bounds : ModelBounds)
      (box : VideoCaptureSimple.BottleBox) (ann : Annotation) :
  VideoCaptureSimple.videoY (VideoCaptureSimple.draw_marker bounds box ann)
  = spec_pixelY bounds (VideoCaptureSimple.y box)
                (VideoCaptureSimple.height box) (y3d ann).
Proof.
  unfold VideoCaptureSimple.draw_marker, y3d.
  destruct (position ann) as [[a b] c]. reflexivity.
Qed.

(** A degenerate or absent box yields no annotation marker in the two
    components that use the linear mapping. *)
Lemma draw_degenerate_no_markers (bounds : ModelBounds)
      (box : option DetectedBox) (anns : list Annotation) :
  match box with
  | Some b => width b <= 0 \/ height b <= 0
  | None => True
  end ->
  markers (draw bounds box anns) = [].
Proof.
  destruct box as [b|]; [|reflexivity].
  intros H. unfold draw, valid_box. simpl.
  destruct H as [H|H]; rewrite (proj2 (gt_false_iff _ _) H);
    rewrite ?andb_false_r; reflexivity.
Qed.

Lemma simple_draw_degenerate_no_markers (bounds : ModelBounds)
      (box : option VideoCaptureSimple.BottleBox) (anns : list Annotation) :
  match box with
  | Some b => VideoCaptureSimple.width b <= 0 \/ VideoCaptureSimple.height b <= 0
  | None => True
  end ->
  VideoCaptureSimple.draw bounds box anns = [].
Proof.
  destruct box as [b|]; [|reflexivity].
  intros H. unfold VideoCaptureSimple.draw, VideoCaptureSimple.valid_box.
  destruct H as [H|H]; rewrite (proj2 (gt_false_iff _ _) H);
    rewrite ?andb_false_r; reflexivity.
Qed.

(** C6. In both components that use the linear mapping, for every
    non-degenerate box and every annotation of the drawn sequence whose
    vertical coordinate lies within the model bounds, the marker drawn for
    it has pixelY = box.y + (1 - normalizedY) * box.height with
    normalizedY = (y - minY) / (maxY - minY) in [0, 1], so the marker lies
    between the top and the bottom of the box.  With bounds -1, 1 and box
    (0, 0, 100, 200), y = 1 maps to pixel y 0 and y = -1 to pixel y 200. *)
Theorem C6_linear_fallback_mapping :
  (forall (box : DetectedBox) (anns : list Annotation) (i : nat)
          (ann : Annotation),
      0 < width box -> 0 < height box ->
      nth_error anns i = Some ann ->
      minY modelBounds <= y3d ann <= maxY modelBounds ->
      exists m,
        nth_error (markers (draw modelBounds (Some box) anns)) i = Some m /\
        videoY m = y box + (1 - spec_normalizedY modelBounds (y3d ann)) * height box /\
        0 <= spec_normalizedY modelBounds (y3d ann) <= 1 /\
        y box <= videoY m <= y box + height box)
  /\ (forall (box : VideoCaptureSimple.BottleBox) (anns : list Annotation)
             (i : nat) (ann : Annotation),
         0 < VideoCaptureSimple.width box -> 0 < VideoCaptureSimple.height box ->
         nth_error anns i = Some ann ->
         minY VideoCaptureSimple.modelBounds <= y3d ann
           <= maxY VideoCaptureSimple.modelBounds ->
         exists m,
           nth_error (VideoCaptureSimple.draw VideoCaptureSimple.modelBounds
                                              (Some box) anns) i = Some m /\
           VideoCaptureSimple.videoY m
           = VideoCaptureSimple.y box
             + (1 - spec_normalizedY VideoCaptureSimple.modelBounds (y3d ann))
               * VideoCaptureSimple.height box /\
           0 <= spec_normalizedY VideoCaptureSimple.modelBounds (y3d ann) <= 1 /\
           VideoCaptureSimple.y box <= VideoCaptureSimple.videoY m
             <= VideoCaptureSimple.y box + VideoCaptureSimple.height box)
  /\ minY modelBounds == -1 /\ maxY modelBounds == 1
  /\ (exists top bottom,
         markers (draw modelBounds (Some tall_box)
                       [top_annotation; bottom_annotation]) = [top; bottom]
         /\ videoY top == 0 /\ videoY bottom == 200)
  /\ (exists top bottom,
         VideoCaptureSimple.draw VideoCaptureSimple.modelBounds
                                 (Some tall_bottle_box)
                                 [top_annotation; bottom_annotation]
         = [top; bottom]
         /\ VideoCaptureSimple.videoY top == 0
         /\ VideoCaptureSimple.videoY bottom == 200).
Proof.
  split; [|split; [|split; [|split; [|split]]]].
  - intros box anns i ann Hw Hh Hi Hy.
    rewrite (draw_markers_valid _ _ _ Hw Hh), nth_error_map, Hi. simpl.
    eexists. split; [reflexivity|].
    rewrite draw_marker_videoY.
    split; [reflexivity|]. split.
    + apply normalizedY_unit_interval, Hy.
    + apply spec_pixelY_in_box; assumption.
  - intros box anns i ann Hw Hh Hi Hy.
    rewrite (simple_draw_valid _ _ _ Hw Hh), nth_error_map, Hi. simpl.
    eexists. split; [reflexivity|].
    rewrite simple_draw_marker_videoY.
    split; [reflexivity|]. split.
    + apply (normalizedY_unit_interval _ Hy).
    + apply (spec_pixelY_in_box _ _ _ Hh Hy).
  - reflexivity.
  - reflexivity.
  - eexists. eexists. split; [reflexivity|]. split; reflexivity.
  - eexists. eexists. split; [reflexivity|]. split; reflexivity.
Qed.

Lemma C6_linear_fallback_mapping_witness :
  0 < width tall_box /\ 0 < height tall_box
  /\ 0 < VideoCaptureSimple.width tall_bottle_box
  /\ 0 < VideoCaptureSimple.height tall_bottle_box
  /\ nth_error [top_annotation; bottom_annotation] 1 = Some bottom_annotation
  /\ minY modelBounds <= y3d bottom_annotation <= maxY modelBounds
  /\ (exists m,
         nth_error (markers (draw modelBounds (Some tall_box)
                                  [top_annotation; bottom_annotation])) 1
         = Some m /\
         videoY m = y tall_box
                    + (1 - spec_normalizedY modelBounds (y3d bottom_annotation))
                      * height tall_box /\
         0 <= spec_normalizedY modelBounds (y3d bottom_annotation) <= 1 /\
         y tall_box <= videoY m <= y tall_box + height tall_box)
  /\ (exists m,
         nth_error (VideoCaptureSimple.draw VideoCaptureSimple.modelBounds
                      (Some tall_bottle_box)
                      [top_annotation; bottom_annotation]) 1
         = Some m /\
         VideoCaptureSimple.videoY m
         = VideoCaptureSimple.y tall_bottle_box
           + (1 - spec_normalizedY VideoCaptureSimple.modelBounds
                                   (y3d bottom_annotation))
             * VideoCaptureSimple.height tall_bottle_box /\
         0 <= spec_normalizedY VideoCaptureSimple.modelBounds
                               (y3d bottom_annotation) <= 1 /\
         VideoCaptureSimple.y tall_bottle_box <= VideoCaptureSimple.videoY m
           <= VideoCaptureSimple.y tall_bottle_box
              + VideoCaptureSimple.height tall_bottle_box).
Proof.
  assert (minY modelBounds <= y3d bottom_annotation <= maxY modelBounds) as Hy.
  { split; vm_compute; discriminate. }
  split; [reflexivity|]. split; [reflexivity|].
  split; [reflexivity|]. split; [reflexivity|]. split; [reflexivity|].
  split; [exact Hy|]. split.
  - apply (proj1 C6_linear_fallback_mapping tall_box
                 [top_annotation; bottom_annotation] 1%nat bottom_annotation);
      [reflexivity|reflexivity|reflexivity|exact Hy].
  - apply (proj1 (proj2 C6_linear_fallback_mapping) tall_bottle_box
                 [top_annotation; bottom_annotation] 1%nat bottom_annotation);
      [reflexivity|reflexivity|reflexivity|exact Hy].
Defined.

(** C7, as stated, fails at its own example: the rescaling factors are the
    constants 1280/640 and 720/480, so the remote bbox (160, 120, 50, 50)
    becomes (320, 180, 100, 75), not (640, 360, 200, 150). *)
Lemma C7_counterexample_fixed_factors :
  exists b,
    detectWithVision (Normal remote_answer) initial
    = Normal (setDetectedBox (Some b) initial)
    /\ x b == 320 /\ y b == 180 /\ width b == 100 /\ height b == 75
    /\ ~ x b == 640 /\ ~ y b == 360 /\ ~ width b == 200 /\ ~ height b == 150.
Proof.
  eexists. split; [reflexivity|]. simpl.
  repeat split; try reflexivity; intro H; discriminate H.
Qed.

(** C7, amended. Every coordinate of a positive remote answer (the bbox x,
    y, width, height and, when parts are present, each part position) is
    rescaled before it is stored: x-components are multiplied by
    nativeWidth/downsampleWidth = 1280/640 and y-components by
    nativeHeight/downsampleHeight = 720/480, both fixed in the code.  The
    bbox (160, 120, 50, 50) rescales to (320, 180, 100, 75). *)
Theorem C7_rescale_fixed_factors :
  (forall (result : VisionResult) (st : State),
      detected result = true ->
      exists b,
        detectWithVision (Normal result) st = Normal (setDetectedBox (Some b) st)
        /\ x b == bbox_x (bbox result) * (nativeWidth / downsampleWidth)
        /\ y b == bbox_y (bbox result) * (nativeHeight / downsampleHeight)
        /\ width b == bbox_width (bbox result) * (nativeWidth / downsampleWidth)
        /\ height b == bbox_height (bbox result) * (nativeHeight / downsampleHeight)
        /\ match result_parts result, parts b with
           | Some p, Some q =>
               scaled_point (cap p) (cap q)
               /\ scaled_point (middle p) (middle q)
               /\ scaled_point (bottom p) (bottom q)
           | None, None => True
           | _, _ => False
           end)
  /\ nativeWidth / downsampleWidth == 2
  /\ nativeHeight / downsampleHeight == 3 # 2
  /\ (exists b,
         detectWithVision (Normal remote_answer) initial
         = Normal (setDetectedBox (Some b) initial)
         /\ x b == 320 /\ y b == 180 /\ width b == 100 /\ height b == 75).
Proof.
  split; [|split; [|split]].
  - intros result st Hd. unfold detectWithVision. simpl. rewrite Hd.
    eexists. split; [reflexivity|]. simpl.
    repeat split; try reflexivity.
    destruct (result_parts result) as [p|]; [|exact I].
    unfold scaled_point. simpl. repeat split; reflexivity.
  - reflexivity.
  - reflexivity.
  - eexists. split; [reflexivity|]. repeat split; reflexivity.
Qed.

Lemma C7_rescale_fixed_factors_witness :
  detected remote_answer = true
  /\ exists b,
      detectWithVision (Normal remote_answer) initial
      = Normal (setDetectedBox (Some b) initial)
      /\ x b == bbox_x (bbox remote_answer) * (nativeWidth / downsampleWidth)
      /\ y b == bbox_y (bbox remote_answer) * (nativeHeight / downsampleHeight)
      /\ width b
         == bbox_width (bbox remote_answer) * (nativeWidth / downsampleWidth)
      /\ height b
         == bbox_height (bbox remote_answer) * (nativeHeight / downsampleHeight)
      /\ match result_parts remote_answer, parts b with
         | Some p, Some q =>
             scaled_point (cap p) (cap q)
             /\ scaled_point (middle p) (middle q)
             /\ scaled_point (bottom p) (bottom q)
         | None, None => True
         | _, _ => False
         end.
Proof.
  split; [reflexivity|].
  apply (proj1 C7_rescale_fixed_factors remote_answer initial). reflexivity.
Defined.

(** C9, as stated, fails: after a failed request the current box is the one
    left by an earlier cycle, not the no-detection value. *)
Lemma C9_counterexample_stale_box :
  exists s',
    App.vision_cycle (Throw "TypeError: Failed to fetch")
                     (StoreFacts.session_with [StoreFacts.a1]
                                              (Some UseAnnotations.OPEN))
    = Normal s'
    /\ detectedBox (App.video s') = Some tall_box
    /\ detectedBox (App.video s') <> None.
Proof.
  eexists. split; [reflexivity|]. split; [reflexivity|]. discriminate.
Qed.

(** C9, amended. When the remote detection request fails, the error is
    caught inside the cycle: the cycle completes normally and leaves the
    current box as it was before the cycle, and the channel connectivity
    and the annotation store are unchanged. *)
Theorem C9_failed_request_changes_nothing :
  forall (e : string) (s : App.Session),
    (forall st, detectWithVision (Throw e) st = Normal st)
    /\ exists s',
        App.vision_cycle (Throw e) s = Normal s'
        /\ detectedBox (App.video s') = detectedBox (App.video s)
        /\ App.ws s' = App.ws s
        /\ App.connected s' = App.connected s
        /\ App.annotations s' = App.annotations s.
Proof.
  intros e s. split; [reflexivity|].
  eexists. split; [reflexivity|]. repeat split.
Qed.

End VisionProofs.

(* ================================================================== *)
(** * Facts about hooks/useAnnotations.js and App.js *)
(* ================================================================== *)

Section StoreProofs.
Import UseAnnotations StoreFacts.

Lemma filter_twice {A : Type} (f : A -> bool) (l : list A) :
  List.filter f (List.filter f l) = List.filter f l.
Proof.
  induction l as [|a l IH]; simpl; [reflexivity|].
  destruct (f a) eqn:E; simpl; [rewrite E, IH; reflexivity|exact IH].
Qed.

Lemma filter_subsequence {A : Type} (f : A -> bool) (l : list A) :
  subsequence (List.filter f l) l.
Proof.
  induction l as [|a l IH]; simpl; [constructor|].
  destruct (f a); constructor; exact IH.
Qed.

(** What [removeAnnotation] does for every id: exactly the annotations
    whose id is strictly equal to it are removed and the others are kept in
    their order; one "removed" message carrying the id is sent exactly
    when the socket is open. *)
Lemma removeAnnotation_by_id (websocket : option ReadyState) (id : value)
      (prev : list Annotation) :
  snd (removeAnnotation websocket id prev)
  = (if is_open websocket then [annotation_removed id] else [])
  /\ (forall ann,
         In ann (fst (removeAnnotation websocket id prev))
         <-> In ann prev /\ strict_eq (ann_id ann) id = false)
  /\ subsequence (fst (removeAnnotation websocket id prev)) prev.
Proof.
  split; [reflexivity|]. simpl. split.
  - intro ann. rewrite filter_In, negb_true_iff. tauto.
  - apply filter_subsequence.
Qed.

(** C4, at the failing input: called with the remove-all sentinel (null)
    on a sequence of two annotations with the channel open,
    [removeAnnotation], and [resetApp] which passes the sentinel, leave
    both annotations in the sequence and broadcast a "removed" message
    carrying the sentinel, where the claim has the sequence cleared and
    nothing broadcast.  With an ordinary id on the same input the
    annotation with that id is removed and the removal is broadcast, as
    claimed. *)
Theorem C4_sentinel_clears_nothing :
  removeAnnotation (Some OPEN) remove_all_sentinel [a1; a2]
  = ([a1; a2], [annotation_removed remove_all_sentinel])
  /\ fst (removeAnnotation (Some OPEN) remove_all_sentinel [a1; a2]) <> []
  /\ snd (removeAnnotation (Some OPEN) remove_all_sentinel [a1; a2]) <> []
  /\ (exists s',
         App.resetApp (session_with [a1; a2] (Some OPEN))
         = (s', [annotation_removed remove_all_sentinel])
         /\ App.annotations s' = [a1; a2])
  /\ removeAnnotation (Some OPEN) (Str "a1") [a1; a2]
     = ([a2], [annotation_removed (Str "a1")]).
Proof.
  split; [reflexivity|]. split; [discriminate|]. split; [discriminate|].
  split; [|reflexivity].
  eexists. split; reflexivity.
Qed.

(** C8. Applying an incoming "annotation_removed" message never throws;
    the resulting store holds no annotation with that id; applying the
    same message again gives the same store.  Applying the message for
    "a1" twice leaves the store without "a1" both times. *)
Theorem C8_remote_removal_idempotent :
  (forall (id : value) (store : list Annotation),
      exists once,
        handleMessage (Normal (annotation_removed id)) store = Normal once
        /\ handleMessage (Normal (annotation_removed id)) once = Normal once
        /\ (forall ann, In ann once -> strict_eq (ann_id ann) id = false)
        /\ (forall ann, In ann once <->
                        In ann store /\ strict_eq (ann_id ann) id = false))
  /\ handleMessage (Normal (annotation_removed (Str "a1"))) [a1; a2]
     = Normal [a2]
  /\ handleMessage (Normal (annotation_removed (Str "a1"))) [a2]
     = Normal [a2].
Proof.
  split; [|split; reflexivity].
  intros id store. eexists. split; [reflexivity|]. simpl.
  split; [rewrite filter_twice; reflexivity|].
  split.
  - intros ann H. apply filter_In in H. apply negb_true_iff, H.
  - intro ann. rewrite filter_In, negb_true_iff. tauto.
Qed.

Lemma C8_remote_removal_idempotent_witness :
  exists once,
    handleMessage (Normal (annotation_removed (Str "a1"))) [a1; a2] = Normal once
    /\ handleMessage (Normal (annotation_removed (Str "a1"))) once = Normal once
    /\ (forall ann, In ann once -> strict_eq (ann_id ann) (Str "a1") = false)
    /\ (forall ann, In ann once <->
                    In ann [a1; a2] /\ strict_eq (ann_id ann) (Str "a1") = false).
Proof.
  exact (proj1 C8_remote_removal_idempotent (Str "a1") [a1; a2]).
Defined.

(** The falsy ids named by the claim. *)
Lemma falsy_ids :
  truthy Null = false /\ truthy Undefined = false
  /\ truthy (Num 0) = false /\ truthy (Str EmptyString) = false.
Proof. repeat split. Qed.

(** C10. [add] appends the annotation and, when the channel is open,
    broadcasts it.  The id of what is stored and broadcast is the
    caller's id when that id is truthy; when it is falsy (null, undefined,
    0 or the empty string among others) the id is replaced by the current
    time, so an annotation created with id 0 or the empty string is stored and broadcast
    under the generated id, which differs from the caller's whenever the
    clock is not at zero. *)
Theorem C10_add_replaces_falsy_id :
  forall (websocket : option ReadyState) (now : Q) (annotation : Annotation)
         (prev : list Annotation),
    exists newAnn,
      addAnnotation websocket now annotation prev
      = (prev ++ [newAnn],
         if is_open websocket then [annotation_added newAnn] else [])
      /\ position newAnn = position annotation
      /\ label newAnn = label annotation
      /\ (truthy (ann_id annotation) = true -> ann_id newAnn = ann_id annotation)
      /\ (truthy (ann_id annotation) = false ->
          ann_id newAnn = Num now
          /\ (~ now == 0 -> strict_eq (ann_id newAnn) (ann_id annotation) = false))
      /\ (In (ann_id annotation) [Null; Undefined; Num 0; Str EmptyString] ->
          ann_id newAnn = Num now).
Proof.
  intros websocket now annotation prev.
  eexists. split; [reflexivity|]. simpl. unfold or_else.
  split; [reflexivity|]. split; [reflexivity|].
  split; [|split].
  - intros ->. reflexivity.
  - intros Hf. rewrite Hf. split; [reflexivity|].
    intro Hnow. destruct (ann_id annotation) as [| |b|n|s]; simpl; try reflexivity.
    simpl in Hf. apply negb_false_iff, Qeq_bool_iff in Hf.
    destruct (Qeq_bool now n) eqn:E; [|reflexivity].
    apply Qeq_bool_iff in E. exfalso. apply Hnow. rewrite E. exact Hf.
  - intros [<-|[<-|[<-|[<-|[]]]]]; reflexivity.
Qed.

Lemma C10_add_replaces_falsy_id_witness :
  truthy (ann_id a1) = true
  /\ truthy (Num 0) = false
  /\ ~ 1700000000000 == 0
  /\ In (Str EmptyString) [Null; Undefined; Num 0; Str EmptyString]
  /\ (exists newAnn,
         addAnnotation (Some OPEN) 1700000000000
                       (mkAnnotation (Num 0) (0, 0, 0) "Cap") [a1]
         = ([a1] ++ [newAnn], [annotation_added newAnn])
         /\ ann_id newAnn = Num 1700000000000
         /\ strict_eq (ann_id newAnn) (Num 0) = false)
  /\ (exists newAnn,
         addAnnotation (Some OPEN) 1700000000000
                       (mkAnnotation (Str EmptyString) (0, 0, 0) "Cap") [a1]
         = ([a1] ++ [newAnn], [annotation_added newAnn])
         /\ ann_id newAnn = Num 1700000000000)
  /\ (exists newAnn,
         addAnnotation (Some OPEN) 1700000000000 a1 []
         = ([] ++ [newAnn], [annotation_added newAnn])
         /\ ann_id newAnn = Str "a1").
Proof.
  assert (~ 1700000000000 == 0) as Hnow by (intro H; discriminate H).
  assert (In (Str EmptyString) [Null; Undefined; Num 0; Str EmptyString])
    as Hin by (simpl; tauto).
  split; [reflexivity|]. split; [reflexivity|]. split; [exact Hnow|].
  split; [exact Hin|]. split; [|split].
  - destruct (C10_add_replaces_falsy_id (Some OPEN) 1700000000000
                (mkAnnotation (Num 0) (0, 0, 0) "Cap") [a1])
      as [newAnn [E [_ [_ [_ [Hfalsy _]]]]]].
    exists newAnn. split; [exact E|].
    destruct (Hfalsy eq_refl) as [Hid Hdiff].
    split; [exact Hid|exact (Hdiff Hnow)].
  - destruct (C10_add_replaces_falsy_id (Some OPEN) 1700000000000
                (mkAnnotation (Str EmptyString) (0, 0, 0) "Cap") [a1])
      as [newAnn [E [_ [_ [_ [_ Hlisted]]]]]].
    exists newAnn. split; [exact E|exact (Hlisted Hin)].
  - destruct (C10_add_replaces_falsy_id (Some OPEN) 1700000000000 a1 [])
      as [newAnn [E [_ [_ [Htruthy _]]]]].
    exists newAnn. split; [exact E|exact (Htruthy eq_refl)].
Defined.

End StoreProofs.

(* ================================================================== *)
(** * Further facts about services/yoloDetection.js *)
(* ================================================================== *)

Section YoloMoreProofs.
Import YoloDetection YoloFacts MoreFacts.

Lemma js_filter_kept {A : Type} (f : A -> completion bool) (l r : list A) :
  Js.filter f l = Normal r -> Forall (fun a => f a = Normal true) r.
Proof.
  revert r. induction l as [|a l IH]; simpl; intros r H.
  - injection H as <-. constructor.
  - destruct (f a) as [keep|e] eqn:Ea; simpl in H; [|discriminate].
    destruct (Js.filter f l) as [r'|e]; simpl in H; [|discriminate].
    injection H as <-. specialize (IH r' eq_refl).
    destruct keep; [constructor; assumption|assumption].
Qed.

Lemma js_map_related {A B : Type} (f : A -> completion B) (l : list A)
      (r : list B) :
  Js.map f l = Normal r -> Forall2 (fun a b => f a = Normal b) l r.
Proof.
  revert r. induction l as [|a l IH]; simpl; intros r H.
  - injection H as <-. constructor.
  - destruct (f a) as [b|e] eqn:Ea; simpl in H; [|discriminate].
    destruct (Js.map f l) as [r'|e]; simpl in H; [|discriminate].
    injection H as <-. constructor; [exact Ea|apply IH; reflexivity].
Qed.

Lemma sort_insert_permutation {A : Type} (cmp : A -> A -> Q) (a : A)
      (l : list A) :
  Permutation.Permutation (sort_insert cmp a l) (a :: l).
Proof.
  induction l as [|b l IH]; simpl.
  - apply Permutation.Permutation_refl.
  - destruct (Qle_bool (cmp a b) 0).
    + apply Permutation.Permutation_refl.
    + eapply Permutation.perm_trans.
      * apply Permutation.perm_skip, IH.
      * apply Permutation.perm_swap.
Qed.

Lemma sort_permutation {A : Type} (cmp : A -> A -> Q) (l : list A) :
  Permutation.Permutation (sort cmp l) l.
Proof.
  induction l as [|a l IH]; simpl.
  - apply Permutation.perm_nil.
  - eapply Permutation.perm_trans.
    + apply sort_insert_permutation.
    + apply Permutation.perm_skip, IH.
Qed.

Lemma sort_insert_descending (a : BottleObject) (l : list BottleObject) :
  Sorted.StronglySorted descending l ->
  Sorted.StronglySorted descending (sort_insert by_confidence a l).
Proof.
  induction 1 as [|b l Hs IH Hb]; simpl.
  - constructor; constructor.
  - unfold by_confidence at 1.
    destruct (Qle_bool (obj_score b - obj_score a) 0) eqn:E.
    + apply Qle_bool_iff in E.
      constructor; [constructor; assumption|].
      constructor; [unfold descending; lra|].
      rewrite Forall_forall in *. intros o Ho. specialize (Hb o Ho).
      unfold descending in *. lra.
    + assert (~ obj_score b - obj_score a <= 0) as Hn.
      { intro Hle. apply Qle_bool_iff in Hle. congruence. }
      constructor; [exact IH|].
      rewrite Forall_forall in *. intros o Ho.
      apply (Permutation.Permutation_in _ (sort_insert_permutation _ a l)) in Ho.
      destruct Ho as [<-|Ho]; [unfold descending; lra|auto].
Qed.

Lemma sort_descending (l : list BottleObject) :
  Sorted.StronglySorted descending (sort by_confidence l).
Proof.
  induction l as [|a l IH]; simpl; [constructor|].
  apply sort_insert_descending, IH.
Qed.

Lemma allow_listed_object (d : Detection) (o : BottleObject) :
  filter_callback d = Normal true -> map_callback d = Normal o ->
  isBottleLike (class o) = true.
Proof.
  unfold filter_callback, map_callback.
  destruct (nth_error (categories d) 0) as [c|]; simpl; [|discriminate].
  intros H1 H2. injection H1 as H1. injection H2 as <-. exact H1.
Qed.

Lemma detectObjects_sorted_filtered :
  forall (Video : Type) (model : option (ObjectDetector Video))
         (videoElement : option Video),
    exists objects,
      detectObjects model videoElement = Normal objects
      /\ Sorted.StronglySorted descending objects
      /\ Forall (fun o => isBottleLike (class o) = true) objects.
Proof.
  intros Video model videoElement. unfold detectObjects.
  destruct model as [m|], videoElement as [v|];
    try (exists []; repeat split; constructor).
  destruct (m v) as [result|e]; simpl;
    [|exists []; repeat split; constructor].
  destruct (Js.filter filter_callback (detections result)) as [kept|e] eqn:Ef;
    simpl; [|exists []; repeat split; constructor].
  destruct (Js.map map_callback kept) as [objs|e] eqn:Em; simpl;
    [|exists []; repeat split; constructor].
  eexists. split; [reflexivity|]. split; [apply sort_descending|].
  apply js_filter_kept in Ef. apply js_map_related in Em.
  rewrite Forall_forall in *. intros o Ho.
  apply (Permutation.Permutation_in _ (sort_permutation _ objs)) in Ho.
  destruct (Forall2_In_right _ _ _ _ Em Ho) as [d [Hd Hmap]].
  apply (allow_listed_object d o); [apply Ef, Hd|exact Hmap].
Qed.

(** X1. Whatever the detector does (no model, no video, an exception, a
    malformed detection or a regular result), [detectObjects] completes
    normally with a list that is sorted by descending confidence and holds
    only objects of the allow-listed categories bottle, cup and wine
    glass. *)
Theorem detectObjects_sorted_allow_listed :
  forall (Video : Type) (model : option (ObjectDetector Video))
         (videoElement : option Video),
    exists objects,
      detectObjects model videoElement = Normal objects
      /\ Sorted.StronglySorted descending objects
      /\ Forall (fun o => isBottleLike (class o) = true) objects
      /\ Forall (fun o => In (class o) ["bottle"; "cup"; "wine glass"]%string)
                objects.
Proof.
  intros Video model videoElement.
  destruct (detectObjects_sorted_filtered Video model videoElement)
    as [objects [E [Hs Ha]]].
  exists objects. split; [exact E|]. split; [exact Hs|]. split; [exact Ha|].
  apply (Forall_impl _ (fun o H => proj1 (isBottleLike_allow_list (class o)) H) Ha).
Qed.

Lemma map_builds_objects (ds : list Detection) :
  Forall (fun d => categories d <> []) ds ->
  Js.map map_callback ds = Normal (List.map built_object ds).
Proof.
  induction 1 as [|d ds Hd _ IH]; simpl; [reflexivity|].
  rewrite IH. unfold map_callback, built_object, top_category.
  destruct (categories d) as [|c cs]; [congruence|]. reflexivity.
Qed.

Lemma detectObjects_well_formed {Video : Type} (model : ObjectDetector Video)
      (video : Video) (ds : list Detection) :
  model video = Normal (mkDetectorResult ds) ->
  Forall (fun d => categories d <> []) ds ->
  detectObjects (Some model) (Some video)
  = Normal (sort by_confidence (List.map built_object (List.filter accepted ds))).
Proof.
  intros Hrun Hwf. unfold detectObjects. rewrite Hrun. simpl.
  rewrite (filter_never_throws ds Hwf). simpl.
  rewrite map_builds_objects; [reflexivity|].
  rewrite Forall_forall in *. intros d Hd. apply filter_In in Hd. apply Hwf, Hd.
Qed.

(** X2. When every reported detection carries a category, [detectObjects]
    returns exactly one object per allow-listed detection: the result is a
    rearrangement of the objects built from the allow-listed detections,
    so none is lost or duplicated and none of another category is added. *)
Theorem detectObjects_one_object_per_allowed_detection :
  forall (Video : Type) (model : ObjectDetector Video) (video : Video)
         (ds : list Detection),
    model video = Normal (mkDetectorResult ds) ->
    Forall (fun d => categories d <> []) ds ->
    exists objects,
      detectObjects (Some model) (Some video) = Normal objects
      /\ Permutation.Permutation
           objects (List.map built_object (List.filter accepted ds))
      /\ List.length objects = List.length (List.filter accepted ds)
      /\ (List.length objects <= List.length ds)%nat.
Proof.
  intros Video model video ds Hrun Hwf.
  rewrite (detectObjects_well_formed model video ds Hrun Hwf).
  eexists. split; [reflexivity|].
  pose proof (sort_permutation by_confidence
                (List.map built_object (List.filter accepted ds))) as HP.
  split; [exact HP|].
  assert (List.length (sort by_confidence
                         (List.map built_object (List.filter accepted ds)))
          = List.length (List.filter accepted ds)) as HL.
  { rewrite (Permutation.Permutation_length HP). apply length_map. }
  split; [exact HL|]. rewrite HL. apply filter_length_le.
Qed.

Lemma detectObjects_one_object_per_allowed_detection_witness :
  detector person_bottle_chair tt = Normal (mkDetectorResult person_bottle_chair)
  /\ Forall (fun d => categories d <> []) person_bottle_chair
  /\ exists objects,
      detectObjects (Some (detector person_bottle_chair)) (Some tt)
      = Normal objects
      /\ Permutation.Permutation
           objects
           (List.map built_object (List.filter accepted person_bottle_chair))
      /\ List.length objects
         = List.length (List.filter accepted person_bottle_chair)
      /\ (List.length objects <= List.length person_bottle_chair)%nat.
Proof.
  assert (Forall (fun d => categories d <> []) person_bottle_chair) as Hwf.
  { repeat constructor; simpl; discriminate. }
  split; [reflexivity|]. split; [exact Hwf|].
  apply (detectObjects_one_object_per_allowed_detection
           unit (detector person_bottle_chair) tt person_bottle_chair);
    [reflexivity|exact Hwf].
Defined.




(** X4. One detection without any category hides everything in the frame:
    reading its first category throws inside the filter, the error is
    swallowed, and [detectObjects] returns the empty list and
    [detectBottle] null, even when other detections are allow-listed. *)
Theorem detectBottle_malformed_detection_hides_all :
  forall (Video : Type) (model : ObjectDetector Video) (video : Video)
         (ds : list Detection),
    model video = Normal (mkDetectorResult ds) ->
    Exists (fun d => categories d = []) ds ->
    detectObjects (Some model) (Some video) = Normal []
    /\ detectBottle (Some model) (Some video) = Normal None.
Proof.
  intros Video model video ds Hrun Hbad.
  assert (detectObjects (Some model) (Some video) = Normal []) as E.
  { unfold detectObjects. rewrite Hrun. simpl.
    destruct (filter_throws_on_malformed ds Hbad) as [e ->]. reflexivity. }
  split; [exact E|]. unfold detectBottle. rewrite E. reflexivity.
Qed.

Lemma detectBottle_malformed_detection_hides_all_witness :
  Exists (fun d => categories d = [])
         [mkDetection [mkCategory "bottle" 0.9] unit_box;
          mkDetection [] unit_box]
  /\ detectBottle
       (Some (detector [mkDetection [mkCategory "bottle" 0.9] unit_box;
                        mkDetection [] unit_box]))
       (Some tt)
     = Normal None.
Proof.
  assert (Exists (fun d => categories d = [])
                 [mkDetection [mkCategory "bottle" 0.9] unit_box;
                  mkDetection [] unit_box]) as Hbad.
  { apply Exists_cons_tl, Exists_cons_hd. reflexivity. }
  split; [exact Hbad|].
  apply (detectBottle_malformed_detection_hides_all unit _ tt _ eq_refl Hbad).
Defined.

(** X5. [loadModel] starts a load only on a detector that has no model and
    is not loading; on a detector that is loading or already has a model
    it changes nothing, whatever the new load would give.  A load that was
    started ends with [isLoading] false, and with a model exactly when
    creation succeeded, so a load after a failed one can still succeed
    while a load after a successful one keeps the first model. *)
Theorem loadModel_guarded :
  forall (Video : Type) (created : completion (ObjectDetector Video))
         (this : YoloLoader.YOLODetector Video),
    ((YoloLoader.isLoading this = true \/ YoloLoader.model this <> None) ->
     YoloLoader.loadModel created this = this)
    /\ (YoloLoader.isLoading this = false -> YoloLoader.model this = None ->
        YoloLoader.isLoading (YoloLoader.loadModel created this) = false
        /\ YoloLoader.model (YoloLoader.loadModel created this)
           = match created with
             | Normal m => Some m
             | Throw _ => None
             end)
    /\ (forall m again,
           YoloLoader.isLoading this = false -> YoloLoader.model this = None ->
           created = Normal m ->
           YoloLoader.loadModel again (YoloLoader.loadModel created this)
           = YoloLoader.loadModel created this)
    /\ (forall e m,
           YoloLoader.isLoading this = false -> YoloLoader.model this = None ->
           created = Throw e ->
           YoloLoader.model
             (YoloLoader.loadModel (Normal m) (YoloLoader.loadModel created this))
           = Some m).
Proof.
  intros Video created this.
  destruct this as [m0 l0]. unfold YoloLoader.loadModel, YoloLoader.loadModel_begin.
  simpl. split; [|split; [|split]].
  - intros [->|H]; [reflexivity|].
    destruct m0; [|congruence]. rewrite orb_true_r. reflexivity.
  - intros -> ->. simpl. destruct created; split; reflexivity.
  - intros m again -> -> ->. reflexivity.
  - intros e m -> -> ->. reflexivity.
Qed.

Lemma loadModel_guarded_witness :
  YoloLoader.isLoading (@YoloLoader.constructor unit) = false
  /\ YoloLoader.model (@YoloLoader.constructor unit) = None
  /\ YoloLoader.model
       (YoloLoader.loadModel (Normal (detector person_bottle_chair))
          (YoloLoader.loadModel (Throw "NetworkError") YoloLoader.constructor))
     = Some (detector person_bottle_chair)
  /\ YoloLoader.loadModel (Throw "NetworkError")
       (YoloLoader.loadModel (Normal (detector person_bottle_chair))
                             YoloLoader.constructor)
     = YoloLoader.loadModel (Normal (detector person_bottle_chair))
                            YoloLoader.constructor
  /\ YoloLoader.loadModel (Normal (detector person_bottle_chair))
       (YoloLoader.mkYOLODetector None true)
     = YoloLoader.mkYOLODetector None true.
Proof.
  split; [reflexivity|]. split; [reflexivity|]. split; [|split].
  - exact (proj2 (proj2 (proj2
             (loadModel_guarded unit (Throw "NetworkError") YoloLoader.constructor)))
             "NetworkError"%string (detector person_bottle_chair)
             eq_refl eq_refl eq_refl).
  - exact (proj1 (proj2 (proj2
             (loadModel_guarded unit (Normal (detector person_bottle_chair))
                                YoloLoader.constructor)))
             (detector person_bottle_chair) (Throw "NetworkError")
             eq_refl eq_refl eq_refl).
  - exact (proj1 (loadModel_guarded unit (Normal (detector person_bottle_chair))
                                    (YoloLoader.mkYOLODetector None true))
                 (or_introl eq_refl)).
Defined.

Lemma getDetector_calls_singleton {Video : Type}
      (outcomes : list (completion (ObjectDetector Video)))
      (d : YoloLoader.YOLODetector Video) :
  YoloLoader.getDetector_calls outcomes (Some d)
  = (Some d, List.repeat d (List.length outcomes)).
Proof.
  induction outcomes as [|c rest IH]; simpl; [reflexivity|].
  rewrite IH. reflexivity.
Qed.

(** X6. [getDetector] loads at most once: after its first call every later
    call returns the detector of the first call, whatever a new load would
    give.  So when the first load fails, every detector ever returned has
    no model and its [detectBottle] answers null on every frame, without
    throwing. *)
Theorem getDetector_loads_once :
  forall (Video : Type) (first : completion (ObjectDetector Video))
         (later : list (completion (ObjectDetector Video))),
    let d := snd (YoloLoader.getDetector first None) in
    YoloLoader.getDetector_calls (first :: later) None
    = (Some d, List.repeat d (S (List.length later)))
    /\ YoloLoader.isLoading d = false
    /\ (forall e, first = Throw e ->
        forall d' (videoElement : option Video),
          In d' (snd (YoloLoader.getDetector_calls (first :: later) None)) ->
          detectBottle (YoloLoader.model d') videoElement = Normal None).
Proof.
  intros Video first later d. subst d.
  assert (YoloLoader.getDetector_calls (first :: later) None
          = (Some (snd (YoloLoader.getDetector first None)),
             List.repeat (snd (YoloLoader.getDetector first None))
                         (S (List.length later)))) as E.
  { simpl. rewrite getDetector_calls_singleton. reflexivity. }
  split; [exact E|]. split.
  - simpl. destruct first; reflexivity.
  - intros e -> d' v Hin. rewrite E in Hin. simpl in Hin.
    destruct Hin as [<-|Hin]; [reflexivity|].
    apply repeat_spec in Hin. subst d'. reflexivity.
Qed.

Lemma getDetector_loads_once_witness :
  detectBottle
    (YoloLoader.model
       (snd (YoloLoader.getDetector
               (Normal (detector person_bottle_chair))
               (fst (YoloLoader.getDetector (Throw "NetworkError") None)))))
    (Some tt)
  = Normal None.
Proof.
  apply (proj2 (proj2 (getDetector_loads_once
                         unit (Throw "NetworkError")
                         [Normal (detector person_bottle_chair)]))
               "NetworkError"%string eq_refl).
  simpl. right. left. reflexivity.
Defined.

End YoloMoreProofs.

(* ================================================================== *)
(** * Further facts about components/VideoCapture.jsx *)
(* ================================================================== *)

Section VideoCaptureMoreProofs.
Import VideoCapture VideoFacts VideoCaptureHud JsText MoreFacts.

Lemma lt_true_iff (a b : Q) : lt a b = true <-> a < b.
Proof. unfold lt. apply (gt_true_iff b a). Qed.

Lemma lt_false_iff (a b : Q) : lt a b = false <-> b <= a.
Proof. unfold lt. apply (gt_false_iff b a). Qed.

Lemma ge_true_iff (a b : Q) : ge a b = true <-> b <= a.
Proof. unfold ge. apply Qle_bool_iff. Qed.

Lemma ge_false_iff (a b : Q) : ge a b = false <-> a < b.
Proof.
  unfold ge. split.
  - intro H. apply Qnot_le_lt. intro Hle. apply Qle_bool_iff in Hle. congruence.
  - intro H. destruct (Qle_bool b a) eqn:E; [|reflexivity].
    apply Qle_bool_iff in E. lra.
Qed.

Lemma detectLoop_without_box (readyState : option Z)
      (outcome : completion (option YoloDetection.BottleObject))
      (r1 r2 : Q) (st : State) :
  (forall b, outcome <> Normal (Some b)) ->
  exists st',
    detectLoop readyState outcome r1 r2 st = Normal st'
    /\ detectedBox st' = detectedBox st
    /\ targetDistance st' = targetDistance st
    /\ clearanceDistance st' = clearanceDistance st.
Proof.
  intro H. unfold detectLoop.
  destruct readyState as [z|]; [|exists st; repeat split].
  destruct z as [|p|p]; try (exists st; repeat split; fail).
  destruct p as [p|p|]; try (exists st; repeat split; fail).
  destruct p as [p|p|]; try (exists st; repeat split; fail).
  destruct p as [p|p|]; try (exists st; repeat split; fail).
  destruct outcome as [[b|]|e]; simpl.
  - exfalso. apply (H b). reflexivity.
  - eexists. repeat split.
  - eexists. repeat split.
Qed.

(** X7. A ready cycle that yields no box, or whose detection attempt
    throws, changes the tracking status but keeps the box and the HUD
    distances of the last detection: the status is no longer locked and the
    centre HUD is hidden, while [draw] goes on placing the same markers on
    the last box. *)
Theorem detectLoop_keeps_last_box :
  forall (outcome : completion (option YoloDetection.BottleObject))
         (random1 random2 : Q) (st : State) (annotations : list Annotation),
    (forall b, outcome <> Normal (Some b)) ->
    exists st',
      detectLoop (Some 4%Z) outcome random1 random2 st = Normal st'
      /\ detectedBox st' = detectedBox st
      /\ targetDistance st' = targetDistance st
      /\ clearanceDistance st' = clearanceDistance st
      /\ trackingStatus st' <> locked
      /\ center_hud_shown st' = false
      /\ warning_banner_shown st' = false
      /\ draw calibration (detectedBox st') annotations
         = draw calibration (detectedBox st) annotations.
Proof.
  intros outcome r1 r2 st anns H.
  destruct (detectLoop_without_box (Some 4%Z) outcome r1 r2 st H)
    as [st' [E [Hb [Ht Hc]]]].
  exists st'. split; [exact E|]. split; [exact Hb|]. split; [exact Ht|].
  split; [exact Hc|].
  destruct (detectLoop_status outcome r1 r2 st) as [st2 [E2 Hs]].
  rewrite E in E2. injection E2 as <-.
  assert (trackingStatus st' <> locked) as Hn.
  { rewrite Hs. destruct outcome as [[b|]|e]; simpl; try discriminate.
    exfalso. apply (H b). reflexivity. }
  split; [exact Hn|].
  unfold center_hud_shown, warning_banner_shown.
  destruct (trackingStatus st'); try congruence.
  - repeat split. rewrite Hb. reflexivity.
  - repeat split. rewrite Hb. reflexivity.
Qed.

Lemma detectLoop_keeps_last_box_witness :
  exists st',
    detectLoop (Some 4%Z) (Normal None) 0.5 0.5
               (mkState (Some sample_box) (Some 12.4) (Some 3.2) locked)
    = Normal st'
    /\ detectedBox st' = Some sample_box
    /\ trackingStatus st' <> locked
    /\ markers (draw calibration (detectedBox st') [cap_marker])
       = markers (draw calibration (Some sample_box) [cap_marker]).
Proof.
  destruct (detectLoop_keeps_last_box
              (Normal None) 0.5 0.5
              (mkState (Some sample_box) (Some 12.4) (Some 3.2) locked)
              [cap_marker])
    as [st' [E [Hb [_ [_ [Hn [_ [_ Hd]]]]]]]]; [discriminate|].
  exists st'. split; [exact E|]. split; [exact Hb|]. split; [exact Hn|].
  rewrite Hd. reflexivity.
Defined.

(** X8. Once a box has been detected the component never goes back to
    having none: over any sequence of cycles (ready or not, with or
    without detection, with or without error) the loop completes normally
    and a box that was present is still present at the end. *)
Theorem run_loop_never_clears_box :
  forall (cycles : list Cycle) (st : State),
    exists st',
      run_loop cycles st = Normal st'
      /\ (detectedBox st <> None -> detectedBox st' <> None).
Proof.
  induction cycles as [|c cycles IH]; intro st; simpl.
  - exists st. split; [reflexivity|tauto].
  - assert (exists st1,
               detectLoop (readyState c) (outcome c) (random1 c) (random2 c) st
               = Normal st1
               /\ (detectedBox st <> None -> detectedBox st1 <> None))
      as [st1 [E1 H1]].
    { destruct (outcome c) as [[b|]|e] eqn:Eo.
      - unfold detectLoop.
        destruct (readyState c) as [z|]; [|exists st; split; [reflexivity|tauto]].
        destruct z as [|p|p]; try (exists st; split; [reflexivity|tauto]).
        destruct p as [p|p|]; try (exists st; split; [reflexivity|tauto]).
        destruct p as [p|p|]; try (exists st; split; [reflexivity|tauto]).
        destruct p as [p|p|]; try (exists st; split; [reflexivity|tauto]).
        simpl. eexists. split; [reflexivity|]. simpl. discriminate.
      - destruct (detectLoop_without_box (readyState c) (Normal None)
                    (random1 c) (random2 c) st) as [st1 [E [Hb _]]];
          [discriminate|].
        exists st1. split; [exact E|]. rewrite Hb. tauto.
      - destruct (detectLoop_without_box (readyState c) (Throw e)
                    (random1 c) (random2 c) st) as [st1 [E [Hb _]]];
          [discriminate|].
        exists st1. split; [exact E|]. rewrite Hb. tauto. }
    rewrite E1. simpl.
    destruct (IH st1) as [st' [E' H']].
    exists st'. split; [exact E'|]. tauto.
Qed.

Lemma run_loop_never_clears_box_witness :
  exists st',
    run_loop [ready (Normal None); ready (Throw "TypeError")]
             (mkState (Some sample_box) (Some 12.4) (Some 3.2) locked)
    = Normal st'
    /\ detectedBox st' <> None.
Proof.
  destruct (run_loop_never_clears_box
              [ready (Normal None); ready (Throw "TypeError")]
              (mkState (Some sample_box) (Some 12.4) (Some 3.2) locked))
    as [st' [E H]].
  exists st'. split; [exact E|]. apply H. discriminate.
Defined.

Lemma run_cycles_ready (outcomes : list (completion (option YoloDetection.BottleObject)))
      (st : State) :
  run_cycles (List.map ready outcomes) st
  = Normal (List.map expected_status outcomes).
Proof.
  revert st. induction outcomes as [|o outcomes IH]; intro st;
    [reflexivity|].
  cbn [List.map run_cycles].
  change (readyState (ready o)) with (Some 4%Z).
  change (outcome (ready o)) with o.
  change (random1 (ready o)) with 0.5.
  change (random2 (ready o)) with 0.5.
  destruct (detectLoop_status o 0.5 0.5 st) as [st' [E Hs]].
  rewrite E. cbn [bind]. rewrite IH. cbn [bind]. rewrite Hs. reflexivity.
Qed.

(** X30. With the detector of the repository the status "lost" is never
    reported: its [detectBottle] swallows every error, so over any
    sequence of ready frames, whatever the detector object holds and
    whatever the video elements are, the loop records one status per
    frame and each of them is locked or searching. *)
Theorem yolo_loop_never_lost :
  forall (Video : Type) (d : YoloLoader.YOLODetector Video)
         (videos : list (option Video)) (st : State),
    exists statuses,
      run_cycles
        (List.map (fun v => ready (YoloDetection.detectBottle
                                     (YoloLoader.model d) v)) videos) st
      = Normal statuses
      /\ List.length statuses = List.length videos
      /\ Forall (fun s => s = locked \/ s = searching) statuses.
Proof.
  intros Video d videos st.
  rewrite <- (List.map_map
                (fun v => YoloDetection.detectBottle (YoloLoader.model d) v)
                ready).
  rewrite run_cycles_ready. eexists. split; [reflexivity|].
  rewrite !length_map. split; [reflexivity|].
  rewrite Forall_forall. intros s Hs.
  apply in_map_iff in Hs. destruct Hs as [o [<- Ho]].
  apply in_map_iff in Ho. destruct Ho as [v [<- _]].
  destruct (detectBottle_never_throws (YoloLoader.model d) v) as [r ->].
  destruct r; simpl; tauto.
Qed.

(** X9. After a ready cycle that yields a box, with both random values in
    [0, 1): the target distance lies between 11.8 and 13.0 and the
    clearance is at least 3.0 and below 5.0; so the centre HUD is shown,
    the clearance is classified "caution", and the critical-clearance
    banner is not shown. *)
Theorem detectLoop_locked_hud :
  forall (b : YoloDetection.BottleObject) (random1 random2 : Q) (st : State),
    0 <= random1 < 1 -> 0 <= random2 < 1 ->
    exists st' target clearance,
      detectLoop (Some 4%Z) (Normal (Some b)) random1 random2 st = Normal st'
      /\ targetDistance st' = Some target
      /\ clearanceDistance st' = Some clearance
      /\ 11.8 <= target <= 13.0
      /\ 3.0 <= clearance < 5.0
      /\ center_hud_shown st' = true
      /\ getClearanceStatus (clearanceDistance st') = "caution"%string
      /\ warning_banner_shown st' = false.
Proof.
  intros b r1 r2 st H1 H2. simpl.
  eexists. eexists. eexists. split; [reflexivity|]. simpl.
  split; [reflexivity|]. split; [reflexivity|].
  assert (11.8 <= 12.4 + (r1 * 1.2 - 0.6) <= 13.0) as Ht by (split; lra).
  assert (3.0 <= 3.2 + (r2 * 0.4 - 0.2) < 5.0) as Hc by (split; lra).
  split; [exact Ht|]. split; [exact Hc|].
  assert (Qeq_bool (12.4 + (r1 * 1.2 - 0.6)) 0 = false) as Et.
  { destruct (Qeq_bool (12.4 + (r1 * 1.2 - 0.6)) 0) eqn:E; [|reflexivity].
    apply Qeq_bool_iff in E. lra. }
  assert (Qeq_bool (3.2 + (r2 * 0.4 - 0.2)) 0 = false) as Ec.
  { destruct (Qeq_bool (3.2 + (r2 * 0.4 - 0.2)) 0) eqn:E; [|reflexivity].
    apply Qeq_bool_iff in E. lra. }
  assert (lt (3.2 + (r2 * 0.4 - 0.2)) 3.0 = false) as E3
      by (apply lt_false_iff; lra).
  assert (lt (3.2 + (r2 * 0.4 - 0.2)) 5.0 = true) as E5
      by (apply lt_true_iff; lra).
  unfold center_hud_shown, warning_banner_shown, getClearanceStatus,
    truthy_number. simpl.
  rewrite Et, Ec, E3, E5. simpl. repeat split.
Qed.

Lemma detectLoop_locked_hud_witness :
  0 <= 0 < 1 /\ 0 <= 0.999 < 1
  /\ exists st' target clearance,
      detectLoop (Some 4%Z) (Normal (Some bottle_object)) 0 0.999 initial
      = Normal st'
      /\ targetDistance st' = Some target
      /\ clearanceDistance st' = Some clearance
      /\ 11.8 <= target <= 13.0
      /\ 3.0 <= clearance < 5.0
      /\ center_hud_shown st' = true
      /\ getClearanceStatus (clearanceDistance st') = "caution"%string
      /\ warning_banner_shown st' = false.
Proof.
  assert (0 <= 0 < 1) as H1 by (split; [apply Qle_refl|reflexivity]).
  assert (0 <= 0.999 < 1) as H2 by (split; [discriminate|reflexivity]).
  split; [exact H1|]. split; [exact H2|].
  apply (detectLoop_locked_hud _ 0 0.999 initial H1 H2).
Defined.

(** X10. [getClearanceStatus] answers "danger" exactly for a clearance
    below 3 other than 0, "caution" exactly from 3 up to but not including
    5, and "safe" otherwise: from 5 on, for a missing clearance and also
    for a clearance of exactly 0. *)
Theorem getClearanceStatus_classes :
  forall c : Q,
    (getClearanceStatus (Some c) = "danger"%string <-> c < 3 /\ ~ c == 0)
    /\ (getClearanceStatus (Some c) = "caution"%string <-> 3 <= c < 5)
    /\ (getClearanceStatus (Some c) = "safe"%string <-> c == 0 \/ 5 <= c)
    /\ getClearanceStatus None = "safe"%string.
Proof.
  intro c. unfold getClearanceStatus, truthy_number.
  destruct (Qeq_bool c 0) eqn:E0; simpl.
  - apply Qeq_bool_iff in E0.
    split; [split; [discriminate|tauto]|].
    split; [split; [discriminate|intros [H1 H2]; exfalso; lra]|].
    split; [split; [tauto|reflexivity]|reflexivity].
  - apply Qeq_bool_neq in E0.
    destruct (lt c 3.0) eqn:E3.
    + apply lt_true_iff in E3.
      split; [split; [intros _; split; [lra|exact E0]|reflexivity]|].
      split; [split; [discriminate|intros [H1 H2]; exfalso; lra]|].
      split; [split; [discriminate|intros [H|H]; exfalso; [tauto|lra]]
             |reflexivity].
    + apply lt_false_iff in E3.
      destruct (lt c 5.0) eqn:E5.
      * apply lt_true_iff in E5.
        split; [split; [discriminate|intros [H1 H2]; exfalso; lra]|].
        split; [split; [intros _; split; lra|reflexivity]|].
        split; [split; [discriminate|intros [H|H]; exfalso; [tauto|lra]]
               |reflexivity].
      * apply lt_false_iff in E5.
        split; [split; [discriminate|intros [H1 H2]; exfalso; lra]|].
        split; [split; [discriminate|intros [H1 H2]; exfalso; lra]|].
        split; [split; [intros _; right; lra|reflexivity]|reflexivity].
Qed.

(** X11. With the calibration of the component, the position computed for
    an annotation on a box of positive width depends on the label alone,
    not on the annotation's 3D position or id, and is one of three points
    on the vertical centre line of the box, at 15%, 50% or 85% of its
    height. *)
Theorem resolve_three_fixed_points :
  forall (ann : Annotation) (box : DetectedBox),
    0 < width box ->
    (exists f,
        In f anchor_heights
        /\ resolve calibration ann (Some box)
           = Some (x box + 0.5 * width box, y box + f * height box))
    /\ (forall other : Annotation,
           label other = label ann ->
           resolve calibration other (Some box)
           = resolve calibration ann (Some box)).
Proof.
  intros ann box Hw. split.
  - rewrite (resolve_positive_width _ _ _ Hw). unfold calibration_point.
    destruct (includes (toLowerCase (label ann)) "cap"
              || includes (toLowerCase (label ann)) "top")%bool;
      [exists 0.15; split; [simpl; tauto|reflexivity]|].
    destruct (includes (toLowerCase (label ann)) "middle"
              || includes (toLowerCase (label ann)) "center"
              || includes (toLowerCase (label ann)) "body")%bool;
      [exists 0.5; split; [simpl; tauto|reflexivity]|].
    destruct (includes (toLowerCase (label ann)) "bottom"
              || includes (toLowerCase (label ann)) "base")%bool;
      [exists 0.85; split; [simpl; tauto|reflexivity]|].
    exists 0.15; split; [simpl; tauto|reflexivity].
  - intros other Hl. rewrite !(resolve_positive_width _ _ _ Hw).
    unfold calibration_point. rewrite Hl. reflexivity.
Qed.

Lemma resolve_three_fixed_points_witness :
  0 < width sample_box
  /\ (exists f,
         In f anchor_heights
         /\ resolve calibration body_marker (Some sample_box)
            = Some (x sample_box + 0.5 * width sample_box,
                    y sample_box + f * height sample_box))
  /\ resolve calibration (mkAnnotation (Num 7) (1, 2, 3) "Body") (Some sample_box)
     = resolve calibration body_marker (Some sample_box).
Proof.
  assert (0 < width sample_box) as Hw by reflexivity.
  split; [exact Hw|]. split.
  - exact (proj1 (resolve_three_fixed_points body_marker sample_box Hw)).
  - exact (proj2 (resolve_three_fixed_points body_marker sample_box Hw)
                 (mkAnnotation (Num 7) (1, 2, 3) "Body") eq_refl).
Defined.

Lemma lower_upper_char (c : ascii) :
  lower_char (upper_char c) = lower_char c.
Proof.
  destruct c as [[] [] [] [] [] [] [] []]; reflexivity.
Qed.

Lemma lower_lower_char (c : ascii) :
  lower_char (lower_char c) = lower_char c.
Proof.
  destruct c as [[] [] [] [] [] [] [] []]; reflexivity.
Qed.

Lemma toLowerCase_toUpperCase (s upper : string) :
  toUpperCase s = Some upper -> toLowerCase upper = toLowerCase s.
Proof.
  revert upper. induction s as [|c s IH]; simpl; intros upper H.
  - injection H as <-. reflexivity.
  - destruct (Nat.ltb (nat_of_ascii c) 128); [|discriminate].
    destruct (toUpperCase s) as [u|]; [|discriminate].
    injection H as <-. simpl. rewrite lower_upper_char, (IH u eq_refl).
    reflexivity.
Qed.

Lemma toLowerCase_idempotent (s : string) :
  toLowerCase (toLowerCase s) = toLowerCase s.
Proof.
  induction s as [|c s IH]; simpl; [reflexivity|].
  rewrite lower_lower_char, IH. reflexivity.
Qed.

(** X12. For labels of ASCII characters the two label classifiers ignore
    letter case: writing such a label in upper case or in lower case
    changes neither the calibration point chosen by [draw] nor the
    structure type (and so the colour) chosen by the structure panel. *)
Theorem label_classifiers_ignore_case :
  forall (cal : Calibration) (ann : Annotation) (upper : string),
    toUpperCase (label ann) = Some upper ->
    calibration_point cal (with_label ann upper) = calibration_point cal ann
    /\ calibration_point cal (with_label ann (toLowerCase (label ann)))
       = calibration_point cal ann
    /\ StructurePanel.getStructureType upper
       = StructurePanel.getStructureType (label ann)
    /\ StructurePanel.getStructureType (toLowerCase (label ann))
       = StructurePanel.getStructureType (label ann)
    /\ StructurePanel.getStructureColor (StructurePanel.getStructureType upper)
       = StructurePanel.getStructureColor
           (StructurePanel.getStructureType (label ann)).
Proof.
  intros cal ann upper Hu.
  unfold calibration_point, StructurePanel.getStructureType, with_label. simpl.
  rewrite !(toLowerCase_toUpperCase _ _ Hu), !toLowerCase_idempotent.
  repeat split.
Qed.

Lemma label_classifiers_ignore_case_witness :
  toUpperCase (label cap_marker) = Some "CAP MARKER"%string
  /\ calibration_point calibration (with_label cap_marker "CAP MARKER")
     = calibration_point calibration cap_marker
  /\ StructurePanel.getStructureType "CAP MARKER"
     = StructurePanel.getStructureType (label cap_marker).
Proof.
  split; [reflexivity|].
  destruct (label_classifiers_ignore_case calibration cap_marker
              "CAP MARKER"%string eq_refl) as [H1 [_ [H3 _]]].
  split; [exact H1|exact H3].
Defined.

End VideoCaptureMoreProofs.

(* ================================================================== *)
(** * Further facts about the vision-enabled video component and
      components/VideoCapture_Simple.jsx *)
(* ================================================================== *)

Section VisionMoreProofs.
Import VideoCaptureVision VisionFacts MoreFacts.

Lemma draw_marker_videoX (box : DetectedBox) (ann : Annotation) :
  videoX (draw_marker modelBounds box ann)
  == x box + (x3d ann + (1 # 2)) * width box.
Proof.
  unfold draw_marker, x3d, normalizedX, modelBounds.
  destruct (position ann) as [[a b] c]. simpl. field.
Qed.

Lemma simple_draw_marker_videoX (box : VideoCaptureSimple.BottleBox)
      (ann : Annotation) :
  VideoCaptureSimple.videoX
    (VideoCaptureSimple.draw_marker VideoCaptureSimple.modelBounds box ann)
  == VideoCaptureSimple.x box + (x3d ann + (1 # 2)) * VideoCaptureSimple.width box.
Proof.
  unfold VideoCaptureSimple.draw_marker, x3d, VideoCaptureSimple.modelBounds.
  destruct (position ann) as [[a b] c]. simpl. field.
Qed.

Lemma draw_marker_videoY_affine (box : DetectedBox) (ann : Annotation) :
  videoY (draw_marker modelBounds box ann)
  == y box + ((1 # 2) - y3d ann * (1 # 2)) * height box.
Proof.
  rewrite draw_marker_videoY.
  unfold spec_pixelY, spec_normalizedY, modelBounds. simpl. field.
Qed.

Lemma simple_draw_marker_videoY_affine (box : VideoCaptureSimple.BottleBox)
      (ann : Annotation) :
  VideoCaptureSimple.videoY
    (VideoCaptureSimple.draw_marker VideoCaptureSimple.modelBounds box ann)
  == VideoCaptureSimple.y box
     + ((1 # 2) - y3d ann * (1 # 2)) * VideoCaptureSimple.height box.
Proof.
  rewrite simple_draw_marker_videoY.
  unfold spec_pixelY, spec_normalizedY, VideoCaptureSimple.modelBounds.
  simpl. field.
Qed.

(** X13. Horizontally the linear mapping is not mirrored: on a
    non-degenerate box an annotation at the left model bound is drawn on
    the left edge of the box, one at the right bound on the right edge, and
    every annotation whose x lies within the bounds is drawn between the
    two edges.  This holds in both components that use the mapping. *)
Theorem linear_mapping_horizontal :
  (forall (box : DetectedBox) (anns : list Annotation) (i : nat)
          (ann : Annotation),
      0 < width box -> 0 < height box ->
      nth_error anns i = Some ann ->
      exists m,
        nth_error (markers (draw modelBounds (Some box) anns)) i = Some m
        /\ (x3d ann == minX modelBounds -> videoX m == x box)
        /\ (x3d ann == maxX modelBounds -> videoX m == x box + width box)
        /\ (minX modelBounds <= x3d ann <= maxX modelBounds ->
            x box <= videoX m <= x box + width box))
  /\ (forall (box : VideoCaptureSimple.BottleBox) (anns : list Annotation)
             (i : nat) (ann : Annotation),
         0 < VideoCaptureSimple.width box -> 0 < VideoCaptureSimple.height box ->
         nth_error anns i = Some ann ->
         exists m,
           nth_error (VideoCaptureSimple.draw VideoCaptureSimple.modelBounds
                                              (Some box) anns) i = Some m
           /\ (x3d ann == minX VideoCaptureSimple.modelBounds ->
               VideoCaptureSimple.videoX m == VideoCaptureSimple.x box)
           /\ (x3d ann == maxX VideoCaptureSimple.modelBounds ->
               VideoCaptureSimple.videoX m
               == VideoCaptureSimple.x box + VideoCaptureSimple.width box)
           /\ (minX VideoCaptureSimple.modelBounds <= x3d ann
                 <= maxX VideoCaptureSimple.modelBounds ->
               VideoCaptureSimple.x box <= VideoCaptureSimple.videoX m
                 <= VideoCaptureSimple.x box + VideoCaptureSimple.width box)).
Proof.
  split.
  - intros box anns i ann Hw Hh Hi.
    rewrite (draw_markers_valid _ _ _ Hw Hh), nth_error_map, Hi. simpl.
    eexists. split; [reflexivity|].
    pose proof (draw_marker_videoX box ann) as E.
    unfold modelBounds. simpl.
    split; [|split].
    + intro Hx. rewrite E, Hx. field.
    + intro Hx. rewrite E, Hx. field.
    + intros [Hlo Hhi]. rewrite E. split; nra.
  - intros box anns i ann Hw Hh Hi.
    rewrite (simple_draw_valid _ _ _ Hw Hh), nth_error_map, Hi. simpl.
    eexists. split; [reflexivity|].
    pose proof (simple_draw_marker_videoX box ann) as E.
    unfold VideoCaptureSimple.modelBounds. simpl.
    split; [|split].
    + intro Hx. rewrite E, Hx. field.
    + intro Hx. rewrite E, Hx. field.
    + intros [Hlo Hhi]. rewrite E. split; nra.
Qed.

Lemma linear_mapping_horizontal_witness :
  0 < width tall_box /\ 0 < height tall_box
  /\ exists m,
      nth_error (markers (draw modelBounds (Some tall_box)
                               [mkAnnotation (Str "left") (-0.5, 0, 0) "Left"]))
                0
      = Some m
      /\ videoX m == x tall_box.
Proof.
  split; [reflexivity|]. split; [reflexivity|].
  destruct (proj1 linear_mapping_horizontal tall_box
                  [mkAnnotation (Str "left") (-0.5, 0, 0) "Left"] 0%nat
                  (mkAnnotation (Str "left") (-0.5, 0, 0) "Left")
                  eq_refl eq_refl eq_refl)
    as [m [E [Hleft _]]].
  exists m. split; [exact E|]. apply Hleft. reflexivity.
Defined.

(** X14. Vertically the linear mapping reverses the order and does not
    pull outside annotations into the box: on a non-degenerate box, of two
    annotations the one that is higher in the model is never drawn lower
    on the screen; an annotation at or above the upper model bound is
    drawn on or above the top edge of the box, and one at or below the
    lower bound on or below the bottom edge.  This holds in both
    components that use the mapping. *)
Theorem linear_mapping_vertical_order :
  (forall (box : DetectedBox) (a1 a2 : Annotation),
      0 < width box -> 0 < height box ->
      exists m1 m2,
        markers (draw modelBounds (Some box) [a1; a2]) = [m1; m2]
        /\ (y3d a1 <= y3d a2 -> videoY m2 <= videoY m1)
        /\ (maxY modelBounds <= y3d a1 -> videoY m1 <= y box)
        /\ (y3d a1 <= minY modelBounds -> y box + height box <= videoY m1))
  /\ (forall (box : VideoCaptureSimple.BottleBox) (a1 a2 : Annotation),
         0 < VideoCaptureSimple.width box -> 0 < VideoCaptureSimple.height box ->
         exists m1 m2,
           VideoCaptureSimple.draw VideoCaptureSimple.modelBounds
                                   (Some box) [a1; a2] = [m1; m2]
           /\ (y3d a1 <= y3d a2 ->
               VideoCaptureSimple.videoY m2 <= VideoCaptureSimple.videoY m1)
           /\ (maxY VideoCaptureSimple.modelBounds <= y3d a1 ->
               VideoCaptureSimple.videoY m1 <= VideoCaptureSimple.y box)
           /\ (y3d a1 <= minY VideoCaptureSimple.modelBounds ->
               VideoCaptureSimple.y box + VideoCaptureSimple.height box
               <= VideoCaptureSimple.videoY m1)).
Proof.
  split.
  - intros box a1 a2 Hw Hh.
    rewrite (draw_markers_valid _ _ _ Hw Hh). simpl.
    eexists. eexists. split; [reflexivity|].
    pose proof (draw_marker_videoY_affine box a1) as E1.
    pose proof (draw_marker_videoY_affine box a2) as E2.
    unfold modelBounds. simpl.
    split; [|split]; intro H; rewrite ?E1, ?E2; nra.
  - intros box a1 a2 Hw Hh.
    rewrite (simple_draw_valid _ _ _ Hw Hh). simpl.
    eexists. eexists. split; [reflexivity|].
    pose proof (simple_draw_marker_videoY_affine box a1) as E1.
    pose proof (simple_draw_marker_videoY_affine box a2) as E2.
    unfold VideoCaptureSimple.modelBounds. simpl.
    split; [|split]; intro H; rewrite ?E1, ?E2; nra.
Qed.

Lemma linear_mapping_vertical_order_witness :
  0 < width tall_box /\ 0 < height tall_box
  /\ y3d bottom_annotation <= y3d top_annotation
  /\ exists m1 m2,
      markers (draw modelBounds (Some tall_box)
                    [bottom_annotation; top_annotation]) = [m1; m2]
      /\ videoY m2 <= videoY m1.
Proof.
  assert (y3d bottom_annotation <= y3d top_annotation) as Hle by discriminate.
  split; [reflexivity|]. split; [reflexivity|]. split; [exact Hle|].
  destruct (proj1 linear_mapping_vertical_order tall_box
                  bottom_annotation top_annotation eq_refl eq_refl)
    as [m1 [m2 [E [Hord _]]]].
  exists m1, m2. split; [exact E|exact (Hord Hle)].
Defined.

Lemma gt_scaled (v k : Q) : 0 < k -> gt (v * k) 0 = gt v 0.
Proof.
  intro Hk. destruct (gt v 0) eqn:E.
  - apply gt_true_iff in E. apply gt_true_iff. nra.
  - apply gt_false_iff in E. apply gt_false_iff. nra.
Qed.

Lemma scaleX_positive : 0 < scaleX.
Proof. reflexivity. Qed.

Lemma scaleY_positive : 0 < scaleY.
Proof. reflexivity. Qed.

(** X15. After a remote answer the annotations are drawn exactly when the
    answer says detected and its bbox has positive width and positive
    height (rescaling never turns a degenerate bbox into a drawable box or
    the reverse); in that case there is one marker per annotation, and
    otherwise none.  An answer that says not detected clears the box. *)
Theorem detectWithVision_then_draw :
  forall (result : VisionResult) (st : State) (anns : list Annotation),
    exists st',
      detectWithVision (Normal result) st = Normal st'
      /\ (detected result = false -> detectedBox st' = None)
      /\ ((detected result
           && gt (bbox_width (bbox result)) 0
           && gt (bbox_height (bbox result)) 0)%bool = true ->
          exists box,
            detectedBox st' = Some box
            /\ markers (draw modelBounds (detectedBox st') anns)
               = List.map (draw_marker modelBounds box) anns)
      /\ ((detected result
           && gt (bbox_width (bbox result)) 0
           && gt (bbox_height (bbox result)) 0)%bool = false ->
          markers (draw modelBounds (detectedBox st') anns) = []).
Proof.
  intros result st anns. unfold detectWithVision. simpl.
  destruct (detected result) eqn:Ed; simpl.
  - eexists. split; [reflexivity|]. simpl.
    split; [discriminate|].
    unfold draw, valid_box. simpl.
    rewrite (gt_scaled _ _ scaleX_positive), (gt_scaled _ _ scaleY_positive).
    split.
    + intro H. eexists. split; [reflexivity|]. rewrite H. simpl.
      destruct anns; reflexivity.
    + intro H. rewrite H. reflexivity.
  - eexists. split; [reflexivity|]. simpl.
    split; [reflexivity|]. split; [discriminate|reflexivity].
Qed.

Lemma detectWithVision_then_draw_witness :
  exists st',
    detectWithVision (Normal remote_answer) tracking_state = Normal st'
    /\ List.length (markers (draw modelBounds (detectedBox st')
                                  [top_annotation; bottom_annotation]))
       = 2%nat.
Proof.
  destruct (detectWithVision_then_draw remote_answer tracking_state
              [top_annotation; bottom_annotation])
    as [st' [E [_ [Hyes _]]]].
  exists st'. split; [exact E|].
  destruct (Hyes eq_refl) as [box [_ Hm]]. rewrite Hm. reflexivity.
Defined.

(** X16. Rescaling maps the uploaded 640x480 frame into the 1280x720
    frame of the video: when the remote bbox lies within the 640x480
    frame, the stored box lies within the 1280x720 frame, and so does
    every part position that lay within the 640x480 frame. *)
Theorem detectWithVision_stays_in_frame :
  forall (result : VisionResult) (st : State),
    detected result = true ->
    within_frame downsampleWidth downsampleHeight
                 (bbox_x (bbox result)) (bbox_y (bbox result))
                 (bbox_width (bbox result)) (bbox_height (bbox result)) ->
    exists box,
      detectWithVision (Normal result) st = Normal (setDetectedBox (Some box) st)
      /\ within_frame nativeWidth nativeHeight
                      (x box) (y box) (width box) (height box)
      /\ forall p,
          result_parts result = Some p ->
          exists q,
            parts box = Some q
            /\ (point_within_frame downsampleWidth downsampleHeight (cap p) ->
                point_within_frame nativeWidth nativeHeight (cap q))
            /\ (point_within_frame downsampleWidth downsampleHeight (middle p) ->
                point_within_frame nativeWidth nativeHeight (middle q))
            /\ (point_within_frame downsampleWidth downsampleHeight (bottom p) ->
                point_within_frame nativeWidth nativeHeight (bottom q)).
Proof.
  intros result st Hd Hin. unfold detectWithVision. simpl. rewrite Hd.
  eexists. split; [reflexivity|]. simpl.
  unfold within_frame, point_within_frame, nativeWidth, nativeHeight,
    downsampleWidth, downsampleHeight, scaleX, scaleY in *.
  assert (1280 / 640 == 2) as E2 by reflexivity.
  assert (720 / 480 == 3 # 2) as E3 by reflexivity.
  split.
  - destruct Hin as [H1 [H2 [H3 [H4 [H5 H6]]]]].
    rewrite E2, E3. repeat split; lra.
  - intros p ->. eexists. split; [reflexivity|]. simpl.
    unfold scaleX, scaleY. rewrite E2, E3.
    repeat split; destruct H as [[? ?] [? ?]]; lra.
Qed.

Lemma detectWithVision_stays_in_frame_witness :
  detected remote_answer_with_parts = true
  /\ exists box,
      detectWithVision (Normal remote_answer_with_parts) initial
      = Normal (setDetectedBox (Some box) initial)
      /\ within_frame nativeWidth nativeHeight
                      (x box) (y box) (width box) (height box).
Proof.
  split; [reflexivity|].
  destruct (detectWithVision_stays_in_frame remote_answer_with_parts initial
              eq_refl)
    as [box [E [Hin _]]].
  - unfold within_frame. simpl. repeat split; discriminate.
  - exists box. split; [exact E|exact Hin].
Defined.

(** X17. Part markers are drawn only for a non-degenerate box that came
    from the remote service with part positions.  A box set by the local
    detection loop never shows any; a positive remote answer with parts
    and a bbox of positive size shows exactly the three parts cap, middle
    and bottom at their rescaled positions. *)
Theorem part_markers_only_from_vision :
  (forall (box : DetectedBox) (anns : list Annotation),
      part_markers (draw modelBounds (Some box) anns) <> [] ->
      valid_box box = true /\ source box = "gpt-4v"%string /\ parts box <> None)
  /\ (forall (d : YoloDetection.BottleObject) (st : State)
             (anns : list Annotation),
         exists st',
           detectLoop (Some 4%Z) (Normal (Some d)) st = Normal st'
           /\ part_markers (draw modelBounds (detectedBox st') anns) = [])
  /\ (forall (result : VisionResult) (p : Parts) (st : State)
             (anns : list Annotation),
         detected result = true ->
         result_parts result = Some p ->
         0 < bbox_width (bbox result) -> 0 < bbox_height (bbox result) ->
         exists st',
           detectWithVision (Normal result) st = Normal st'
           /\ part_markers (draw modelBounds (detectedBox st') anns)
              = [("cap", scale_point (cap p));
                 ("middle", scale_point (middle p));
                 ("bottom", scale_point (bottom p))]%string).
Proof.
  split; [|split].
  - intros box anns H. unfold draw in H. simpl in H.
    destruct (valid_box box); [|congruence].
    destruct (parts box) as [p|]; [|congruence].
    destruct (String.eqb_spec (source box) "gpt-4v"); [|congruence].
    repeat split; [assumption|discriminate].
  - intros d st anns. simpl. eexists. split; [reflexivity|].
    simpl. destruct (valid_box _); reflexivity.
  - intros result p st anns Hd Hp Hw Hh.
    unfold detectWithVision. simpl. rewrite Hd, Hp.
    eexists. split; [reflexivity|]. unfold draw, valid_box. simpl.
    rewrite (gt_scaled _ _ scaleX_positive), (gt_scaled _ _ scaleY_positive).
    rewrite (proj2 (gt_true_iff _ _) Hw), (proj2 (gt_true_iff _ _) Hh).
    reflexivity.
Qed.

Lemma part_markers_only_from_vision_witness :
  detected remote_answer_with_parts = true
  /\ 0 < bbox_width (bbox remote_answer_with_parts)
  /\ 0 < bbox_height (bbox remote_answer_with_parts)
  /\ exists st',
      detectWithVision (Normal remote_answer_with_parts) initial = Normal st'
      /\ List.length (part_markers (draw modelBounds (detectedBox st') []))
         = 3%nat.
Proof.
  split; [reflexivity|]. split; [reflexivity|]. split; [reflexivity|].
  destruct (proj2 (proj2 part_markers_only_from_vision)
                  remote_answer_with_parts
                  (mkParts (mkPoint 185 130) (mkPoint 185 220) (mkPoint 185 310))
                  initial [] eq_refl eq_refl eq_refl eq_refl)
    as [st' [E Hp]].
  exists st'. split; [exact E|]. rewrite Hp. reflexivity.
Defined.

(** X18. In the vision-enabled component the two strategies treat their
    outcomes alike.  A ready local cycle without detection and a remote
    answer that says not detected both clear the box, so no annotation
    marker is drawn afterwards; a local detection attempt that throws and
    a remote request that fails both leave the state as it was; and a
    local cycle on a video that is not ready does nothing. *)
Theorem vision_strategies_agree :
  forall (st : State) (anns : list Annotation),
    (forall result,
        detected result = false ->
        detectWithVision (Normal result) st
        = detectLoop (Some 4%Z) (Normal None) st
        /\ exists st',
            detectLoop (Some 4%Z) (Normal None) st = Normal st'
            /\ detectedBox st' = None
            /\ useVision st' = useVision st
            /\ markers (draw modelBounds (detectedBox st') anns) = [])
    /\ (forall e1 e2,
           detectWithVision (Throw e1) st = Normal st
           /\ detectLoop (Some 4%Z) (Throw e2) st = Normal st)
    /\ (forall readyState outcome,
           readyState <> Some 4%Z ->
           detectLoop readyState outcome st = Normal st).
Proof.
  intros st anns. split; [|split].
  - intros result Hd. unfold detectWithVision. simpl. rewrite Hd.
    split; [reflexivity|].
    eexists. split; [reflexivity|]. repeat split.
  - intros e1 e2. split; reflexivity.
  - intros readyState outcome H. unfold detectLoop.
    destruct readyState as [z|]; [|reflexivity].
    destruct z as [|p|p]; try reflexivity.
    destruct p as [p|p|]; try reflexivity.
    destruct p as [p|p|]; try reflexivity.
    destruct p as [p|p|]; try reflexivity.
    congruence.
Qed.

Lemma vision_strategies_agree_witness :
  Some 3%Z <> Some 4%Z
  /\ detectLoop (Some 3%Z) (Normal None) tracking_state = Normal tracking_state
  /\ detectWithVision
       (Normal (mkVisionResult false (mkVisionBBox 0 0 0 0) 0 None))
       tracking_state
     = detectLoop (Some 4%Z) (Normal None) tracking_state.
Proof.
  assert (Some 3%Z <> Some 4%Z) as H by discriminate.
  split; [exact H|]. split.
  - exact (proj2 (proj2 (vision_strategies_agree tracking_state []))
                 (Some 3%Z) (Normal None) H).
  - exact (proj1 (proj1 (vision_strategies_agree tracking_state [])
                        (mkVisionResult false (mkVisionBBox 0 0 0 0) 0 None)
                        eq_refl)).
Defined.

End VisionMoreProofs.

(* ================================================================== *)
(** * Facts about the manual calibration of
      components/VideoCapture_Simple.jsx *)
(* ================================================================== *)

Section SimpleCalibrationProofs.
Import VideoCaptureSimple SimpleCalibration VisionFacts MoreFacts.

Lemma scale_positive (full shown : Q) : 0 < full -> 0 < shown -> 0 < full / shown.
Proof.
  intros Hf Hs. unfold Qdiv. apply Qmult_lt_0_compat; [exact Hf|].
  apply Qinv_lt_0_compat, Hs.
Qed.

Lemma canvas_x_lt (rect : Rect) (e1 e2 : MouseEvent) :
  0 < rect_width rect ->
  (canvas_x rect e1 < canvas_x rect e2 <-> clientX e1 < clientX e2).
Proof.
  intro Hw. unfold canvas_x.
  pose proof (scale_positive canvas_width (rect_width rect) eq_refl Hw) as Hs.
  set (k := canvas_width / rect_width rect) in *. split; intro H; nra.
Qed.

Lemma canvas_y_lt (rect : Rect) (e1 e2 : MouseEvent) :
  0 < rect_height rect ->
  (canvas_y rect e1 < canvas_y rect e2 <-> clientY e1 < clientY e2).
Proof.
  intro Hh. unfold canvas_y.
  pose proof (scale_positive canvas_height (rect_height rect) eq_refl Hh) as Hs.
  set (k := canvas_height / rect_height rect) in *. split; intro H; nra.
Qed.

(** X19. Manual calibration takes exactly two clicks.  Starting from
    "Recalibrate", the first click stores a box of size zero at the click
    and draws nothing; the second click sets the size to the difference of
    the two clicks, ends calibration, and every later click is ignored.  The
    resulting box is non-degenerate exactly when the second click is
    strictly to the right of and strictly below the first; otherwise no
    annotation is ever drawn on it. *)
Theorem calibration_two_clicks :
  forall (rect : Rect) (e1 e2 : MouseEvent) (st0 : State)
         (anns : list Annotation),
    0 < rect_width rect -> 0 < rect_height rect ->
    let st1 := handleCanvasClick rect e1 (recalibrate st0) in
    let st2 := handleCanvasClick rect e2 st1 in
    bottleBox st1
    = Some (mkBottleBox (canvas_x rect e1) (canvas_y rect e1) 0 0)
    /\ isCalibrating st1 = true
    /\ draw modelBounds (bottleBox st1) anns = []
    /\ bottleBox st2
       = Some (mkBottleBox (canvas_x rect e1) (canvas_y rect e1)
                           (canvas_x rect e2 - canvas_x rect e1)
                           (canvas_y rect e2 - canvas_y rect e1))
    /\ isCalibrating st2 = false
    /\ (forall e3, handleCanvasClick rect e3 st2 = st2)
    /\ (clientX e1 < clientX e2 /\ clientY e1 < clientY e2 ->
        exists box,
          bottleBox st2 = Some box
          /\ draw modelBounds (bottleBox st2) anns
             = List.map (draw_marker modelBounds box) anns)
    /\ (~ (clientX e1 < clientX e2 /\ clientY e1 < clientY e2) ->
        draw modelBounds (bottleBox st2) anns = []).
Proof.
  intros rect e1 e2 st0 anns Hw Hh st1 st2. subst st1 st2.
  unfold handleCanvasClick, recalibrate. simpl.
  split; [reflexivity|]. split; [reflexivity|]. split; [reflexivity|].
  split; [reflexivity|]. split; [reflexivity|]. split; [reflexivity|].
  fold (canvas_x rect e1) (canvas_y rect e1) (canvas_x rect e2)
       (canvas_y rect e2).
  split.
  - intros [Hx Hy]. eexists. split; [reflexivity|].
    apply (simple_draw_valid
             modelBounds
             (mkBottleBox (canvas_x rect e1) (canvas_y rect e1)
                          (canvas_x rect e2 - canvas_x rect e1)
                          (canvas_y rect e2 - canvas_y rect e1))
             anns); simpl.
    + apply (canvas_x_lt rect e1 e2 Hw) in Hx. lra.
    + apply (canvas_y_lt rect e1 e2 Hh) in Hy. lra.
  - intro Hn.
    apply (simple_draw_degenerate_no_markers
             modelBounds
             (Some (mkBottleBox (canvas_x rect e1) (canvas_y rect e1)
                                (canvas_x rect e2 - canvas_x rect e1)
                                (canvas_y rect e2 - canvas_y rect e1)))
             anns).
    simpl.
    destruct (Qlt_le_dec (clientX e1) (clientX e2)) as [Hx|Hx].
    + destruct (Qlt_le_dec (clientY e1) (clientY e2)) as [Hy|Hy];
        [tauto|].
      right.
      assert (~ canvas_y rect e1 < canvas_y rect e2) as Hc.
      { intro Hc. apply (canvas_y_lt rect e1 e2 Hh) in Hc. lra. }
      lra.
    + left.
      assert (~ canvas_x rect e1 < canvas_x rect e2) as Hc.
      { intro Hc. apply (canvas_x_lt rect e1 e2 Hw) in Hc. lra. }
      lra.
Qed.

Lemma calibration_two_clicks_witness :
  0 < rect_width half_size_rect /\ 0 < rect_height half_size_rect
  /\ clientX first_click < clientX second_click
  /\ clientY first_click < clientY second_click
  /\ (exists box,
         bottleBox (handleCanvasClick half_size_rect second_click
                      (handleCanvasClick half_size_rect first_click
                                         (recalibrate initial)))
         = Some box
         /\ List.length
              (draw modelBounds
                 (bottleBox (handleCanvasClick half_size_rect second_click
                               (handleCanvasClick half_size_rect first_click
                                                  (recalibrate initial))))
                 [top_annotation; bottom_annotation])
            = 2%nat)
  /\ draw modelBounds
       (bottleBox (handleCanvasClick half_size_rect first_click
                     (handleCanvasClick half_size_rect second_click
                                        (recalibrate initial))))
       [top_annotation; bottom_annotation]
     = [].
Proof.
  assert (0 < rect_width half_size_rect) as Hw by reflexivity.
  assert (0 < rect_height half_size_rect) as Hh by reflexivity.
  assert (clientX first_click < clientX second_click) as Hx by reflexivity.
  assert (clientY first_click < clientY second_click) as Hy by reflexivity.
  split; [exact Hw|]. split; [exact Hh|]. split; [exact Hx|].
  split; [exact Hy|]. split.
  - destruct (calibration_two_clicks half_size_rect first_click second_click
                initial [top_annotation; bottom_annotation] Hw Hh)
      as [_ [_ [_ [_ [_ [_ [Hgood _]]]]]]].
    destruct (Hgood (conj Hx Hy)) as [box [Eb Ed]].
    exists box. split; [exact Eb|]. rewrite Ed. reflexivity.
  - destruct (calibration_two_clicks half_size_rect second_click first_click
                initial [top_annotation; bottom_annotation] Hw Hh)
      as [_ [_ [_ [_ [_ [_ [_ Hbad]]]]]]].
    apply Hbad. intros [H _]. revert H. vm_compute. discriminate.
Defined.

(** X20. The calibrated rectangle is the image of the model bounds: after
    two clicks in the right order, an annotation at the upper left corner
    of the model bounds (minX, maxY) is drawn at the canvas point of the
    first click and one at the lower right corner (maxX, minY) at the
    canvas point of the second click; and a click inside the displayed
    canvas is mapped to a point inside the 1280x720 canvas. *)
Theorem calibration_maps_model_corners :
  forall (rect : Rect) (e1 e2 : MouseEvent) (st0 : State)
         (id1 id2 : value) (z1 z2 : Q) (l1 l2 : string),
    0 < rect_width rect -> 0 < rect_height rect ->
    clientX e1 < clientX e2 -> clientY e1 < clientY e2 ->
    let st2 := handleCanvasClick rect e2
                 (handleCanvasClick rect e1 (recalibrate st0)) in
    (exists m1 m2,
        draw modelBounds (bottleBox st2)
             [mkAnnotation id1 (VideoCaptureVision.minX modelBounds, VideoCaptureVision.maxY modelBounds, z1) l1;
              mkAnnotation id2 (VideoCaptureVision.maxX modelBounds, VideoCaptureVision.minY modelBounds, z2) l2]
        = [m1; m2]
        /\ videoX m1 == canvas_x rect e1 /\ videoY m1 == canvas_y rect e1
        /\ videoX m2 == canvas_x rect e2 /\ videoY m2 == canvas_y rect e2)
    /\ (left rect <= clientX e1 <= left rect + rect_width rect ->
        0 <= canvas_x rect e1 <= canvas_width)
    /\ (top rect <= clientY e1 <= top rect + rect_height rect ->
        0 <= canvas_y rect e1 <= canvas_height).
Proof.
  intros rect e1 e2 st0 id1 id2 z1 z2 l1 l2 Hw Hh Hx Hy st2. subst st2.
  split; [|split].
  - destruct (calibration_two_clicks rect e1 e2 st0
                [mkAnnotation id1 (VideoCaptureVision.minX modelBounds, VideoCaptureVision.maxY modelBounds, z1) l1;
                 mkAnnotation id2 (VideoCaptureVision.maxX modelBounds, VideoCaptureVision.minY modelBounds, z2) l2]
                Hw Hh)
      as [_ [_ [_ [Eb [_ [_ [Hgood _]]]]]]].
    destruct (Hgood (conj Hx Hy)) as [box [Eb' Ed]].
    rewrite Ed. rewrite Eb in Eb'. injection Eb' as <-.
    simpl. eexists. eexists. split; [reflexivity|]. simpl.
    repeat split; field.
  - intros [Hlo Hhi]. unfold canvas_x.
    assert (canvas_width / rect_width rect * rect_width rect == canvas_width)
      as E by (field; lra).
    pose proof (scale_positive canvas_width (rect_width rect) eq_refl Hw) as Hs.
    set (k := canvas_width / rect_width rect) in *. split; nra.
  - intros [Hlo Hhi]. unfold canvas_y.
    assert (canvas_height / rect_height rect * rect_height rect == canvas_height)
      as E by (field; lra).
    pose proof (scale_positive canvas_height (rect_height rect) eq_refl Hh) as Hs.
    set (k := canvas_height / rect_height rect) in *. split; nra.
Qed.

Lemma calibration_maps_model_corners_witness :
  0 < rect_width half_size_rect /\ 0 < rect_height half_size_rect
  /\ clientX first_click < clientX second_click
  /\ clientY first_click < clientY second_click
  /\ left half_size_rect <= clientX first_click
       <= left half_size_rect + rect_width half_size_rect
  /\ 0 <= canvas_x half_size_rect first_click <= canvas_width
  /\ exists m1 m2,
      draw modelBounds
           (bottleBox (handleCanvasClick half_size_rect second_click
                         (handleCanvasClick half_size_rect first_click
                                            (recalibrate initial))))
           [mkAnnotation (Str "tl") (VideoCaptureVision.minX modelBounds, VideoCaptureVision.maxY modelBounds, 0) "TL";
            mkAnnotation (Str "br") (VideoCaptureVision.maxX modelBounds, VideoCaptureVision.minY modelBounds, 0) "BR"]
      = [m1; m2]
      /\ videoX m1 == 200 /\ videoY m1 == 100
      /\ videoX m2 == 400 /\ videoY m2 == 500.
Proof.
  assert (0 < rect_width half_size_rect) as Hw by reflexivity.
  assert (0 < rect_height half_size_rect) as Hh by reflexivity.
  assert (clientX first_click < clientX second_click) as Hx by reflexivity.
  assert (clientY first_click < clientY second_click) as Hy by reflexivity.
  assert (left half_size_rect <= clientX first_click
            <= left half_size_rect + rect_width half_size_rect) as Hin.
  { split; vm_compute; discriminate. }
  destruct (calibration_maps_model_corners
              half_size_rect first_click second_click initial
              (Str "tl") (Str "br") 0 0 "TL"%string "BR"%string Hw Hh Hx Hy)
    as [[m1 [m2 [E [H1 [H2 [H3 H4]]]]]] [Hcx _]].
  split; [exact Hw|]. split; [exact Hh|]. split; [exact Hx|].
  split; [exact Hy|]. split; [exact Hin|]. split; [exact (Hcx Hin)|].
  exists m1, m2. split; [exact E|].
  rewrite H1, H2, H3, H4. repeat split; reflexivity.
Defined.

End SimpleCalibrationProofs.

(* ================================================================== *)
(** * Further facts about hooks/useAnnotations.js, App.js and the
      components that call them *)
(* ================================================================== *)

Section StoreMoreProofs.
Import UseAnnotations StoreFacts Replication MoreFacts.

Lemma strict_eq_refl (v : value) : strict_eq v v = true.
Proof.
  destruct v as [| |b|n|s]; simpl; try reflexivity.
  - destruct b; reflexivity.
  - apply Qeq_bool_refl.
  - apply String.eqb_refl.
Qed.

Lemma filter_all_kept {A : Type} (f : A -> bool) (l : list A) :
  (forall a, In a l -> f a = true) -> List.filter f l = l.
Proof.
  induction l as [|a l IH]; simpl; intro H; [reflexivity|].
  rewrite (H a (or_introl eq_refl)). f_equal. apply IH.
  intros b Hb. apply H. right. exact Hb.
Qed.

Lemma deliver_app (m1 m2 : list Message) (prev : list Annotation) :
  deliver (m1 ++ m2) prev = bind (deliver m1 prev) (deliver m2).
Proof.
  revert prev. induction m1 as [|m m1 IH]; intro prev; simpl; [reflexivity|].
  destruct m as [a|id|t]; simpl; apply IH.
Qed.

Lemma apply_op_open (op : LocalOp) (prev : list Annotation) :
  exists m,
    snd (apply_op (Some OPEN) op prev) = [m]
    /\ handleMessage (Normal m) prev = Normal (fst (apply_op (Some OPEN) op prev)).
Proof.
  destruct op as [now ann|id]; simpl; eexists; split; reflexivity.
Qed.

Lemma apply_op_closed (websocket : option ReadyState) (op : LocalOp)
      (prev : list Annotation) :
  is_open websocket = false -> snd (apply_op websocket op prev) = [].
Proof.
  intro Hc.
  destruct op as [now ann|id];
    unfold apply_op, addAnnotation, removeAnnotation, send_if_open;
    cbn [snd]; rewrite Hc; reflexivity.
Qed.

Lemma run_local_closed (websocket : option ReadyState) (ops : list LocalOp)
      (prev : list Annotation) :
  is_open websocket = false -> snd (run_local websocket ops prev) = [].
Proof.
  intro Hc. revert prev. induction ops as [|op ops IH]; intro prev; simpl;
    [reflexivity|].
  pose proof (apply_op_closed websocket op prev Hc) as E1.
  destruct (apply_op websocket op prev) as [next sent1].
  specialize (IH next).
  destruct (run_local websocket ops next) as [final sent2]. simpl in *.
  rewrite IH, E1. reflexivity.
Qed.

(** X21. Replication over an open channel: whatever sequence of add and
    remove operations a client performs while its channel is open, a peer
    that starts from the same sequence and handles the messages sent, in
    order, ends with exactly the client's sequence, and handling them never
    throws.  While the channel is not open nothing at all is sent, so the
    peer learns of none of the operations. *)
Theorem replication_follows_local_operations :
  forall (ops : list LocalOp) (store : list Annotation),
    deliver (snd (run_local (Some OPEN) ops store)) store
    = Normal (fst (run_local (Some OPEN) ops store))
    /\ List.length (snd (run_local (Some OPEN) ops store)) = List.length ops
    /\ (forall websocket,
           is_open websocket = false ->
           snd (run_local websocket ops store) = []).
Proof.
  intros ops store. split; [|split].
  - revert store. induction ops as [|op ops IH]; intro store; simpl;
      [reflexivity|].
    destruct (apply_op_open op store) as [m [Es Eh]].
    destruct (apply_op (Some OPEN) op store) as [next sent1]. simpl in *.
    specialize (IH next).
    destruct (run_local (Some OPEN) ops next) as [final sent2]. simpl in *.
    subst sent1. simpl. rewrite Eh. simpl. exact IH.
  - revert store. induction ops as [|op ops IH]; intro store; simpl;
      [reflexivity|].
    destruct (apply_op_open op store) as [m [Es _]].
    destruct (apply_op (Some OPEN) op store) as [next sent1]. simpl in *.
    specialize (IH next).
    destruct (run_local (Some OPEN) ops next) as [final sent2]. simpl in *.
    subst sent1. simpl. rewrite IH. reflexivity.
  - intros websocket Hc. apply run_local_closed, Hc.
Qed.

Lemma replication_follows_local_operations_witness :
  is_open (Some CLOSED) = false
  /\ snd (run_local (Some CLOSED)
            [op_add 1700000000000 a1; op_remove (Str "a1")] [a2])
     = []
  /\ deliver (snd (run_local (Some OPEN)
                     [op_add 1700000000000 a1; op_remove (Num 1700000000000)]
                     [a2]))
             [a2]
     = Normal [a1].
Proof.
  split; [reflexivity|]. split.
  - exact (proj2 (proj2 (replication_follows_local_operations
                           [op_add 1700000000000 a1; op_remove (Str "a1")] [a2]))
                 (Some CLOSED) eq_refl).
  - rewrite (proj1 (replication_follows_local_operations
                      [op_add 1700000000000 a1; op_remove (Num 1700000000000)]
                      [a2])).
    reflexivity.
Defined.

(** X22. Removing what was just added gives the sequence back: after
    [add], [remove] with the id under which the annotation was stored
    leaves exactly the earlier sequence, provided no earlier annotation
    carries that id; in general it leaves the earlier sequence without the
    annotations of that id. *)
Theorem add_then_remove :
  forall (ws1 ws2 : option ReadyState) (now : Q) (annotation : Annotation)
         (prev : list Annotation),
    let stored_id := or_else (ann_id annotation) (Num now) in
    fst (removeAnnotation ws2 stored_id
           (fst (addAnnotation ws1 now annotation prev)))
    = fst (removeAnnotation ws2 stored_id prev)
    /\ ((forall a, In a prev -> strict_eq (ann_id a) stored_id = false) ->
        fst (removeAnnotation ws2 stored_id
               (fst (addAnnotation ws1 now annotation prev)))
        = prev).
Proof.
  intros ws1 ws2 now annotation prev stored_id. subst stored_id. simpl.
  assert (List.filter
            (fun ann => negb (strict_eq (ann_id ann)
                                        (or_else (ann_id annotation) (Num now))))
            (prev ++ [with_id annotation (or_else (ann_id annotation) (Num now))])
          = List.filter
              (fun ann => negb (strict_eq (ann_id ann)
                                          (or_else (ann_id annotation) (Num now))))
              prev) as E.
  { rewrite filter_app. simpl. rewrite strict_eq_refl. simpl.
    apply app_nil_r. }
  split; [exact E|].
  intro Hfresh. rewrite E. apply filter_all_kept.
  intros a Ha. rewrite (Hfresh a Ha). reflexivity.
Qed.

Lemma add_then_remove_witness :
  (forall a, In a [a2] -> strict_eq (ann_id a) (or_else (ann_id a1) (Num 5)) = false)
  /\ fst (removeAnnotation None (or_else (ann_id a1) (Num 5))
            (fst (addAnnotation (Some OPEN) 5 a1 [a2])))
     = [a2].
Proof.
  assert (forall a, In a [a2] ->
                    strict_eq (ann_id a) (or_else (ann_id a1) (Num 5)) = false)
    as Hfresh.
  { intros a [<-|[]]. reflexivity. }
  split; [exact Hfresh|].
  exact (proj2 (add_then_remove (Some OPEN) None 5 a1 [a2]) Hfresh).
Defined.

(** X23. Removals can be done in any order and never enlarge the
    sequence: removing two ids in either order leaves the same sequence,
    and removing an id that no annotation carries leaves the sequence as
    it is. *)
Theorem remove_commutes :
  forall (ws1 ws2 ws3 ws4 : option ReadyState) (id1 id2 : value)
         (prev : list Annotation),
    fst (removeAnnotation ws1 id1 (fst (removeAnnotation ws2 id2 prev)))
    = fst (removeAnnotation ws3 id2 (fst (removeAnnotation ws4 id1 prev)))
    /\ (List.length (fst (removeAnnotation ws1 id1 prev)) <= List.length prev)%nat
    /\ ((forall a, In a prev -> strict_eq (ann_id a) id1 = false) ->
        fst (removeAnnotation ws1 id1 prev) = prev).
Proof.
  intros ws1 ws2 ws3 ws4 id1 id2 prev. simpl. split; [|split].
  - induction prev as [|a prev IH]; simpl; [reflexivity|].
    destruct (strict_eq (ann_id a) id2) eqn:E2;
      destruct (strict_eq (ann_id a) id1) eqn:E1; simpl;
      rewrite ?E1, ?E2; simpl; rewrite IH; reflexivity.
  - apply filter_length_le.
  - intro H. apply filter_all_kept. intros a Ha. rewrite (H a Ha). reflexivity.
Qed.

Lemma remove_commutes_witness :
  (forall a, In a [a1; a2] -> strict_eq (ann_id a) (Num 3) = false)
  /\ fst (removeAnnotation (Some OPEN) (Num 3) [a1; a2]) = [a1; a2].
Proof.
  assert (forall a, In a [a1; a2] -> strict_eq (ann_id a) (Num 3) = false) as H.
  { intros a [<-|[<-|[]]]; reflexivity. }
  split; [exact H|].
  exact (proj2 (proj2 (remove_commutes (Some OPEN) None None None
                                       (Num 3) (Num 3) [a1; a2])) H).
Defined.

Lemma truthy_not_null (v : value) : truthy v = true -> strict_eq v Null = false.
Proof. destruct v; simpl; congruence. Qed.

Lemma apply_op_truthy (websocket : option ReadyState) (op : LocalOp)
      (prev : list Annotation) :
  match clock_of op with Some now => ~ now == 0 | None => True end ->
  Forall (fun a => truthy (ann_id a) = true) prev ->
  Forall (fun a => truthy (ann_id a) = true) (fst (apply_op websocket op prev)).
Proof.
  intros Hclock Hprev. destruct op as [now ann|id]; simpl in *.
  - apply Forall_app. split; [exact Hprev|].
    constructor; [|constructor]. simpl. unfold or_else.
    destruct (truthy (ann_id ann)) eqn:E; [exact E|]. simpl.
    apply negb_true_iff. destruct (Qeq_bool now 0) eqn:E0; [|reflexivity].
    apply Qeq_bool_iff in E0. tauto.
  - rewrite Forall_forall in *. intros a Ha. apply filter_In in Ha.
    apply Hprev, Ha.
Qed.

(** X24. Every annotation stored by local operations carries a truthy id,
    as long as the clock never reads zero: starting from a sequence whose
    ids are all truthy, any sequence of add and remove operations leaves
    all ids truthy.  Consequently [resetApp], which removes the id null,
    removes none of them: the annotations stay as they are while the model
    URL is cleared. *)
Theorem local_ids_stay_truthy :
  forall (websocket : option ReadyState) (ops : list LocalOp)
         (store : list Annotation),
    Forall (fun op => match clock_of op with
                      | Some now => ~ now == 0
                      | None => True
                      end) ops ->
    Forall (fun a => truthy (ann_id a) = true) store ->
    let final := fst (run_local websocket ops store) in
    Forall (fun a => truthy (ann_id a) = true) final
    /\ forall (s : App.Session),
        App.annotations s = final ->
        App.annotations (fst (App.resetApp s)) = final
        /\ App.modelUrl (fst (App.resetApp s)) = None.
Proof.
  intros websocket ops store Hops Hstore final. subst final.
  assert (Forall (fun a => truthy (ann_id a) = true)
                 (fst (run_local websocket ops store))) as Hfinal.
  { revert store Hstore. induction Hops as [|op ops Hop _ IH]; intros store Hs;
      simpl; [exact Hs|].
    pose proof (apply_op_truthy websocket op store Hop Hs) as H1.
    destruct (apply_op websocket op store) as [next sent1]. simpl in H1.
    specialize (IH next H1).
    destruct (run_local websocket ops next) as [fin sent2]. exact IH. }
  split; [exact Hfinal|].
  intros s Hs. unfold App.resetApp. simpl. rewrite Hs. split; [|reflexivity].
  apply filter_all_kept. intros a Ha.
  rewrite Forall_forall in Hfinal.
  rewrite (truthy_not_null _ (Hfinal a Ha)). reflexivity.
Qed.

Lemma local_ids_stay_truthy_witness :
  Forall (fun op => match clock_of op with
                    | Some now => ~ now == 0
                    | None => True
                    end)
         [op_add 1700000000000 (mkAnnotation Undefined (0, 0, 0) "Cap");
          op_remove Null; op_add 1700000000001 a1]
  /\ App.annotations
       (fst (App.resetApp
               (session_with
                  (fst (run_local (Some OPEN)
                          [op_add 1700000000000
                                  (mkAnnotation Undefined (0, 0, 0) "Cap");
                           op_remove Null; op_add 1700000000001 a1] []))
                  (Some OPEN))))
     = fst (run_local (Some OPEN)
              [op_add 1700000000000 (mkAnnotation Undefined (0, 0, 0) "Cap");
               op_remove Null; op_add 1700000000001 a1] []).
Proof.
  assert (Forall (fun op => match clock_of op with
                            | Some now => ~ now == 0
                            | None => True
                            end)
                 [op_add 1700000000000 (mkAnnotation Undefined (0, 0, 0) "Cap");
                  op_remove Null; op_add 1700000000001 a1]) as Hops.
  { repeat constructor; simpl; intro H; discriminate H. }
  split; [exact Hops|].
  apply (proj2 (local_ids_stay_truthy (Some OPEN) _ [] Hops (Forall_nil _))).
  reflexivity.
Defined.

(** X25. Ids taken from the clock collide: two clicks on the model at the
    same clock value produce two annotations with the same id, both are
    stored, and removing that id removes both at once. *)
Theorem same_clock_same_id :
  forall (ws : option ReadyState) (now : Q) (p1 p2 : Q * Q * Q)
         (prev : list Annotation),
    ~ now == 0 ->
    let after :=
      fst (addAnnotation ws now (ModelViewer.handleClick now p2)
             (fst (addAnnotation ws now (ModelViewer.handleClick now p1) prev)))
    in
    after = prev ++ [ModelViewer.handleClick now p1;
                     ModelViewer.handleClick now p2]
    /\ ann_id (ModelViewer.handleClick now p1)
       = ann_id (ModelViewer.handleClick now p2)
    /\ fst (removeAnnotation ws (Num now) after)
       = fst (removeAnnotation ws (Num now) prev).
Proof.
  intros ws now [[x1 y1] z1] [[x2 y2] z2] prev Hnow after. subst after.
  assert (negb (Qeq_bool now 0) = true) as Et.
  { apply negb_true_iff. destruct (Qeq_bool now 0) eqn:E; [|reflexivity].
    apply Qeq_bool_iff in E. tauto. }
  simpl. unfold or_else, with_id. simpl. rewrite Et. simpl.
  rewrite <- app_assoc. simpl.
  split; [reflexivity|]. split; [reflexivity|].
  rewrite filter_app. simpl. rewrite Qeq_bool_refl. simpl. apply app_nil_r.
Qed.

Lemma same_clock_same_id_witness :
  ~ 1700000000000 == 0
  /\ fst (removeAnnotation None (Num 1700000000000)
            (fst (addAnnotation None 1700000000000
                    (ModelViewer.handleClick 1700000000000 (1, 2, 3))
                    (fst (addAnnotation None 1700000000000
                            (ModelViewer.handleClick 1700000000000 (0, 0, 0))
                            [a1])))))
     = fst (removeAnnotation None (Num 1700000000000) [a1]).
Proof.
  assert (~ 1700000000000 == 0) as Hnow by (intro H; discriminate H).
  split; [exact Hnow|].
  exact (proj2 (proj2 (same_clock_same_id None 1700000000000
                                          (0, 0, 0) (1, 2, 3) [a1] Hnow))).
Defined.

End StoreMoreProofs.

(* ================================================================== *)
(** * Facts about path drawing (App.js, IncisionPlanner.jsx) and the
      coordinate transformer *)
(* ================================================================== *)

Section PathProofs.
Import AppPath JsText.

Lemma clicks_while_drawing (ws : option UseAnnotations.ReadyState)
      (events : list (Q * Annotation)) (st : State) :
  isDrawingPath st = true ->
  clicks ws events st
  = ({| isDrawingPath := true;
        pathPoints := pathPoints st
                      ++ List.map (fun e => position (snd e)) events;
        annotations := annotations st |}, []).
Proof.
  revert st. induction events as [|[now point] events IH]; intros st Hd; simpl.
  - rewrite app_nil_r. destruct st as [d p a]. simpl in *. subst d. reflexivity.
  - unfold handlePathPointClick. rewrite Hd.
    rewrite IH; [|reflexivity]. simpl. rewrite <- app_assoc. reflexivity.
Qed.

(** X26. A click on the model goes either to the path or to the
    annotations, never to both.  While a path is being drawn, any number of
    clicks only extends the path, by the clicked positions in order: no
    annotation is added and nothing is sent.  Outside drawing mode every
    click adds one annotation at the clicked position and the path is left
    alone.  Right after "Plan Access Path" the path is exactly the
    sequence of clicked positions. *)
Theorem clicks_route_by_mode :
  forall (ws : option UseAnnotations.ReadyState)
         (events : list (Q * Annotation)) (st : State),
    (isDrawingPath st = true ->
     pathPoints (fst (clicks ws events st))
     = pathPoints st ++ List.map (fun e => position (snd e)) events
     /\ annotations (fst (clicks ws events st)) = annotations st
     /\ isDrawingPath (fst (clicks ws events st)) = true
     /\ snd (clicks ws events st) = [])
    /\ (isDrawingPath st = false ->
        pathPoints (fst (clicks ws events st)) = pathPoints st
        /\ List.map position (annotations (fst (clicks ws events st)))
           = List.map position (annotations st)
             ++ List.map (fun e => position (snd e)) events
        /\ isDrawingPath (fst (clicks ws events st)) = false)
    /\ pathPoints (fst (clicks ws events (onStartDrawing st)))
       = List.map (fun e => position (snd e)) events.
Proof.
  intros ws events st. split; [|split].
  - intro Hd. rewrite (clicks_while_drawing ws events st Hd). simpl. tauto.
  - revert st. induction events as [|[now point] events IH]; intros st Hd; simpl.
    + rewrite app_nil_r. tauto.
    + unfold handlePathPointClick. rewrite Hd. simpl.
      match goal with
      | |- context [clicks ws events ?s] =>
          specialize (IH s eq_refl); destruct (clicks ws events s) as [st2 sent2]
      end.
      simpl in *. destruct IH as [Hp [Ha Hm]].
      split; [exact Hp|]. split; [|exact Hm].
      rewrite Ha, map_app. simpl. rewrite <- app_assoc. reflexivity.
  - rewrite (clicks_while_drawing ws events (onStartDrawing st) eq_refl).
    reflexivity.
Qed.

Lemma clicks_route_by_mode_witness :
  isDrawingPath (onStartDrawing (mkState false [(9, 9, 9)] [StoreFacts.a1])) = true
  /\ isDrawingPath (mkState false [] [StoreFacts.a1]) = false
  /\ annotations
       (fst (clicks (Some UseAnnotations.OPEN)
               [(1, ModelViewer.handleClick 1 (1, 2, 3));
                (2, ModelViewer.handleClick 2 (4, 5, 6))]
               (onStartDrawing (mkState false [(9, 9, 9)] [StoreFacts.a1]))))
     = [StoreFacts.a1]
  /\ pathPoints
       (fst (clicks (Some UseAnnotations.OPEN)
               [(1, ModelViewer.handleClick 1 (1, 2, 3))]
               (mkState false [] [StoreFacts.a1])))
     = [].
Proof.
  split; [reflexivity|]. split; [reflexivity|]. split.
  - exact (proj1 (proj2 (proj1 (clicks_route_by_mode
                                  (Some UseAnnotations.OPEN)
                                  [(1, ModelViewer.handleClick 1 (1, 2, 3));
                                   (2, ModelViewer.handleClick 2 (4, 5, 6))]
                                  (onStartDrawing
                                     (mkState false [(9, 9, 9)] [StoreFacts.a1])))
                               eq_refl))).
  - exact (proj1 (proj1 (proj2 (clicks_route_by_mode
                                  (Some UseAnnotations.OPEN)
                                  [(1, ModelViewer.handleClick 1 (1, 2, 3))]
                                  (mkState false [] [StoreFacts.a1])))
                        eq_refl)).
Defined.

(** X27. "Validate Path" never analyses a path of fewer than two points:
    then the path is cleared, drawing ends, an alert is shown and the
    planner is left as it was.  With two points or more the points are
    kept and loading ends in every case: a successful answer is stored and
    ends drawing, a failed request keeps the earlier analysis and the
    drawing mode and shows an alert.  The annotations are never touched. *)
Theorem handleFinishDrawing_outcomes :
  forall (Analysis : Type) (response : completion Analysis)
         (app : State) (st : IncisionPlanner.State Analysis),
    let app' := fst (fst (IncisionPlanner.handleFinishDrawing response app st)) in
    let st' := snd (fst (IncisionPlanner.handleFinishDrawing response app st)) in
    let alerts := snd (IncisionPlanner.handleFinishDrawing response app st) in
    annotations app' = annotations app
    /\ ((List.length (pathPoints app) < 2)%nat ->
        pathPoints app' = [] /\ isDrawingPath app' = false
        /\ st' = st /\ alerts <> [])
    /\ ((2 <= List.length (pathPoints app))%nat ->
        pathPoints app' = pathPoints app
        /\ IncisionPlanner.loading st' = false
        /\ match response with
           | Normal analysis =>
               IncisionPlanner.pathAnalysis st' = Some analysis
               /\ isDrawingPath app' = false /\ alerts = []
           | Throw _ =>
               IncisionPlanner.pathAnalysis st' = IncisionPlanner.pathAnalysis st
               /\ isDrawingPath app' = isDrawingPath app /\ alerts <> []
           end).
Proof.
  intros Analysis response app st.
  unfold IncisionPlanner.handleFinishDrawing.
  destruct (Nat.ltb_spec (List.length (pathPoints app)) 2) as [Hlt|Hge]; simpl.
  - split; [reflexivity|]. split.
    + intros _. repeat split. discriminate.
    + intro H. exfalso. lia.
  - destruct response as [analysis|e]; simpl.
    + split; [reflexivity|]. split; [intro H; exfalso; lia|].
      intros _. repeat split.
    + split; [reflexivity|]. split; [intro H; exfalso; lia|].
      intros _. repeat split. discriminate.
Qed.

Lemma handleFinishDrawing_outcomes_witness :
  (List.length (pathPoints MoreFacts.one_point_path) < 2)%nat
  /\ (2 <= List.length (pathPoints MoreFacts.two_point_path))%nat
  /\ pathPoints
       (fst (fst (IncisionPlanner.handleFinishDrawing
                    (Normal 0.9) MoreFacts.one_point_path
                    (IncisionPlanner.mkState None false))))
     = []
  /\ IncisionPlanner.loading
       (snd (fst (IncisionPlanner.handleFinishDrawing
                    (@Throw Q "NetworkError") MoreFacts.two_point_path
                    (IncisionPlanner.mkState None true))))
     = false.
Proof.
  assert ((List.length (pathPoints MoreFacts.one_point_path) < 2)%nat)
    as H1 by (simpl; lia).
  assert ((2 <= List.length (pathPoints MoreFacts.two_point_path))%nat)
    as H2 by (simpl; lia).
  split; [exact H1|]. split; [exact H2|]. split.
  - exact (proj1 (proj1 (proj2 (handleFinishDrawing_outcomes
                                  Q (Normal 0.9) MoreFacts.one_point_path
                                  (IncisionPlanner.mkState None false)))
                        H1)).
  - exact (proj1 (proj2 (proj2 (proj2 (handleFinishDrawing_outcomes
                                         Q (Throw "NetworkError")
                                         MoreFacts.two_point_path
                                         (IncisionPlanner.mkState None true)))
                               H2))).
Defined.

Ltac decide_thresholds :=
  repeat match goal with
         | H : ge _ _ = true |- _ => apply ge_true_iff in H
         | H : ge _ _ = false |- _ => apply ge_false_iff in H
         end;
  try (exfalso; lra);
  repeat split; intros;
  try reflexivity; try discriminate; try lra; try (exfalso; lra);
  try (left; reflexivity); try (right; reflexivity);
  try match goal with
      | H : _ \/ _ |- _ => destruct H; discriminate
      end.

(** X28. The three classifiers of a path segment agree with each other:
    the status is "safe" from a confidence of 0.8, "caution" from 0.6 up
    to 0.8 and "danger" below 0.6; the colour is green, orange or red
    exactly for the status safe, caution or danger; and the clearance
    label is "> 15mm" or "12-15mm" exactly for safe segments, "8-12mm" or
    "5-8mm" exactly for caution and "< 5mm" exactly for danger. *)
Theorem segment_classifiers_agree :
  forall c : Q,
    (IncisionPlanner.getSegmentStatus c = "safe"%string <-> 0.8 <= c)
    /\ (IncisionPlanner.getSegmentStatus c = "caution"%string <-> 0.6 <= c < 0.8)
    /\ (IncisionPlanner.getSegmentStatus c = "danger"%string <-> c < 0.6)
    /\ (IncisionPlanner.getSegmentColor c = "#2E7D32"%string
        <-> IncisionPlanner.getSegmentStatus c = "safe"%string)
    /\ (IncisionPlanner.getSegmentColor c = "#F57C00"%string
        <-> IncisionPlanner.getSegmentStatus c = "caution"%string)
    /\ (IncisionPlanner.getSegmentColor c = "#C62828"%string
        <-> IncisionPlanner.getSegmentStatus c = "danger"%string)
    /\ (IncisionPlanner.getClearanceFromConfidence c = ">15mm"%string
        \/ IncisionPlanner.getClearanceFromConfidence c = "12-15mm"%string
        <-> IncisionPlanner.getSegmentStatus c = "safe"%string)
    /\ (IncisionPlanner.getClearanceFromConfidence c = "8-12mm"%string
        \/ IncisionPlanner.getClearanceFromConfidence c = "5-8mm"%string
        <-> IncisionPlanner.getSegmentStatus c = "caution"%string)
    /\ (IncisionPlanner.getClearanceFromConfidence c = "<5mm"%string
        <-> IncisionPlanner.getSegmentStatus c = "danger"%string).
Proof.
  intro c.
  unfold IncisionPlanner.getSegmentStatus, IncisionPlanner.getSegmentColor,
    IncisionPlanner.getClearanceFromConfidence.
  destruct (ge c 0.90) eqn:E9; destruct (ge c 0.80) eqn:E8;
    destruct (ge c 0.70) eqn:E7; destruct (ge c 0.60) eqn:E6;
    decide_thresholds.
Qed.

(** X29. [worldToScreen] maps the visible range of normalized device
    coordinates onto the canvas and flips the vertical axis: a projected
    x in [-1, 1] lands in [0, width] and a projected y in [-1, 1] in
    [0, height]; y = 1 lands on the top edge and y = -1 on the bottom
    edge; and the point is reported in view exactly when its projected
    depth is below 1. *)
Theorem worldToScreen_within_canvas :
  forall (project : CoordinateTransformer.Vector3 -> CoordinateTransformer.Vector3)
         (width height : Q) (position : CoordinateTransformer.Vector3),
    0 <= width -> 0 <= height ->
    let v := project position in
    let s := CoordinateTransformer.worldToScreen project width height position in
    (-1 <= CoordinateTransformer.vx v <= 1 ->
     0 <= CoordinateTransformer.sx s <= width)
    /\ (-1 <= CoordinateTransformer.vy v <= 1 ->
        0 <= CoordinateTransformer.sy s <= height)
    /\ (CoordinateTransformer.vy v == 1 -> CoordinateTransformer.sy s == 0)
    /\ (CoordinateTransformer.vy v == -1 -> CoordinateTransformer.sy s == height)
    /\ (CoordinateTransformer.vx v == -1 -> CoordinateTransformer.sx s == 0)
    /\ (CoordinateTransformer.vx v == 1 -> CoordinateTransformer.sx s == width)
    /\ (CoordinateTransformer.inView s = true <-> CoordinateTransformer.vz v < 1).
Proof.
  intros project width height position Hw Hh v s. subst v s.
  unfold CoordinateTransformer.worldToScreen. simpl.
  set (v := project position).
  split; [|split; [|split; [|split; [|split; [|split]]]]].
  - intros [H1 H2]. split; nra.
  - intros [H1 H2]. split; nra.
  - intro H. rewrite H. field.
  - intro H. rewrite H. field.
  - intro H. rewrite H. field.
  - intro H. rewrite H. field.
  - apply lt_true_iff.
Qed.

Lemma worldToScreen_within_canvas_witness :
  0 <= 1280 /\ 0 <= 720
  /\ -1 <= CoordinateTransformer.vy (CoordinateTransformer.mkVector3 0 1 0.5) <= 1
  /\ 0 <= CoordinateTransformer.sy
            (CoordinateTransformer.worldToScreen
               (fun p => p) 1280 720 (CoordinateTransformer.mkVector3 0 1 0.5))
       <= 720
  /\ CoordinateTransformer.sy
       (CoordinateTransformer.worldToScreen
          (fun p => p) 1280 720 (CoordinateTransformer.mkVector3 0 1 0.5))
     == 0.
Proof.
  assert (0 <= 1280) as Hw by discriminate.
  assert (0 <= 720) as Hh by discriminate.
  assert (-1 <= CoordinateTransformer.vy (CoordinateTransformer.mkVector3 0 1 0.5)
            <= 1) as Hy by (split; discriminate).
  split; [exact Hw|]. split; [exact Hh|]. split; [exact Hy|].
  pose proof (worldToScreen_within_canvas
                (fun p => p) 1280 720 (CoordinateTransformer.mkVector3 0 1 0.5)
                Hw Hh) as H.
  simpl in H. destruct H as [_ [Hsy [Htop _]]].
  split; [exact (Hsy Hy)|]. apply Htop. reflexivity.
Defined.

End PathProofs.
